(** * alpacas-cli: command dispatch, aliases and the background analysis runner

    A shallow embedding of the Python sources

      - [commands/core.py]       (CommandResult, AnalysisResult, StoppableAnalysis)
      - [analysis/core.py]       (AsyncAnalysisRunner)
      - [analysis/analysis.py]   (SampleAnalysis)
      - [utils/input_validation.py] (the validators used by the two commands)
      - [commands/manager.py]    (CommandManager)
      - [commands/alias.py]      (AliasCommand)
      - [commands/analysis.py]   (AnalysisCommand)

    Python objects that are shared by reference (runners, analyses) live in
    a store and are named by their address; exceptions are values of an
    error type and every fallible function returns an [outcome]. *)

From stdpp Require Import gmap strings list fin_maps.
From Stdlib Require Import Ascii String.

Open Scope string_scope.

(* ===================================================================== *)
(** ** Python values shared by all modules *)
(* ===================================================================== *)

Module Py.

(** The exception classes that occur in the modelled code.  [UserError]
    stands for any other class deriving from [Exception] (its name is
    kept); [KeyboardInterrupt] and [SystemExit] derive from
    [BaseException] only. *)
Inductive exc_class : Type :=
| ValueError
| RuntimeError
| EOFError
| TypeError
| AttributeError
| KeyError
| UserError (name : string)
| KeyboardInterrupt
| SystemExit.

(** An exception instance: its class and [str(e)]. *)
Record exn : Type := Exn { exn_class : exc_class; exn_str : string }.

(** [isinstance(e, Exception)]: what [except Exception] catches. *)
Definition is_Exception (e : exn) : bool :=
  match exn_class e with
  | KeyboardInterrupt | SystemExit => false
  | _ => true
  end.

(** [isinstance(e, KeyboardInterrupt)]. *)
Definition is_KeyboardInterrupt (e : exn) : bool :=
  match exn_class e with
  | KeyboardInterrupt => true
  | _ => false
  end.

(** The result of a call: a value, or a raised exception. *)
Inductive outcome (A : Type) : Type :=
| Return (a : A)
| Raise (e : exn).
Arguments Return {A} a.
Arguments Raise {A} e.

(** A computation over a mutable state [S]: a raise keeps the mutations
    made before it, as in Python. *)
Definition M (S A : Type) : Type := S -> outcome A * S.

Definition ret {S A : Type} (a : A) : M S A := fun s => (Return a, s).
Definition throw {S A : Type} (e : exn) : M S A := fun s => (Raise e, s).
Definition bind {S A B : Type} (m : M S A) (k : A -> M S B) : M S B :=
  fun s => match m s with
           | (Return a, s') => k a s'
           | (Raise e, s') => (Raise e, s')
           end.
Definition get {S : Type} : M S S := fun s => (Return s, s).
Definition modify {S : Type} (f : S -> S) : M S unit := fun s => (Return tt, f s).

(** [try: m  except Exception as e: h e] *)
Definition try_except_Exception {S A : Type} (m : M S A) (h : exn -> M S A) : M S A :=
  fun s => match m s with
           | (Raise e, s') => if is_Exception e then h e s' else (Raise e, s')
           | r => r
           end.

(** ASCII part of [str.isspace]: TAB, LF, VT, FF, CR, FS, GS, RS, US and
    the space. *)
Definition isspace (c : ascii) : bool :=
  let n := nat_of_ascii c in
  (Nat.leb 9 n && Nat.leb n 13) || (Nat.leb 28 n && Nat.leb n 32).

Fixpoint lstrip (s : string) : string :=
  match s with
  | String c s' => if isspace c then lstrip s' else s
  | EmptyString => EmptyString
  end.

(** Drops the trailing whitespace: a character is kept when something
    that is kept follows it, or when it is not whitespace. *)
Fixpoint rstrip (s : string) : string :=
  match s with
  | String c s' =>
      match rstrip s' with
      | EmptyString => if isspace c then EmptyString else String c EmptyString
      | t => String c t
      end
  | EmptyString => EmptyString
  end.

(** [s.strip()] *)
Definition strip (s : string) : string := rstrip (lstrip s).

Definition lower_ascii (c : ascii) : ascii :=
  let n := nat_of_ascii c in
  if Nat.leb 65 n && Nat.leb n 90 then ascii_of_nat (n + 32) else c.

(** [s.lower()], on the ASCII letters. *)
Fixpoint lower (s : string) : string :=
  match s with
  | String c s' => String (lower_ascii c) (lower s')
  | EmptyString => EmptyString
  end.

(** [s.startswith(p)] *)
Definition startswith (s p : string) : bool := String.prefix p s.

(** [s.split(" ", 1)]: at most one split, at the first space. *)
Fixpoint split_space_once_aux (acc s : string) : list string :=
  match s with
  | String c s' =>
      if Ascii.eqb c " "%char then [acc; s']
      else split_space_once_aux (acc +:+ String c EmptyString) s'
  | EmptyString => [acc]
  end.
Definition split_space_once (s : string) : list string :=
  split_space_once_aux EmptyString s.

Definition hex_digit (n : nat) : ascii :=
  if Nat.ltb n 10 then ascii_of_nat (48 + n) else ascii_of_nat (87 + n).

Fixpoint contains_char (c : ascii) (s : string) : bool :=
  match s with
  | String d s' => Ascii.eqb c d || contains_char c s'
  | EmptyString => false
  end.

Definition backslash : ascii := ascii_of_nat 92.
Definition double_quote : ascii := ascii_of_nat 34.
Definition single_quote : ascii := ascii_of_nat 39.

Definition escaped (c : ascii) : string := String backslash (String c EmptyString).

(** One character of [repr(s)], for the quote [q] chosen by [repr]. *)
Definition repr_char (q c : ascii) : string :=
  let n := nat_of_ascii c in
  if Ascii.eqb c backslash then escaped backslash
  else if Ascii.eqb c q then escaped c
  else if Nat.eqb n 9 then escaped "t"%char
  else if Nat.eqb n 10 then escaped "n"%char
  else if Nat.eqb n 13 then escaped "r"%char
  else if Nat.ltb n 32 || Nat.eqb n 127 then
    String backslash (String "x"%char
      (String (hex_digit (n / 16)) (String (hex_digit (n mod 16)) EmptyString)))
  else String c EmptyString.

Fixpoint repr_body (q : ascii) (s : string) : string :=
  match s with
  | String c s' => repr_char q c +:+ repr_body q s'
  | EmptyString => EmptyString
  end.

(** [repr(s)] of a [str]: single quotes, unless the string has a single
    quote and no double quote.  Bytes above 127 are kept (they encode
    printable non-ASCII characters). *)
Definition repr_str (s : string) : string :=
  let q := if contains_char single_quote s && negb (contains_char double_quote s)
           then double_quote else single_quote in
  String q (repr_body q s) +:+ String q EmptyString.

Fixpoint join (sep : string) (l : list string) : string :=
  match l with
  | [] => EmptyString
  | [x] => x
  | x :: l' => x +:+ sep +:+ join sep l'
  end.

(** [str(l)] of a list of [str]. *)
Definition str_list (l : list string) : string :=
  "[" +:+ join ", " (map repr_str l) +:+ "]".

(** [needle in haystack] on strings. *)
Definition contains (haystack needle : string) : Prop :=
  exists pre post, haystack = pre +:+ needle +:+ post.

End Py.

#[global] Instance M_ret {S : Type} : MRet (Py.M S) := fun A a => Py.ret a.
#[global] Instance M_bind {S : Type} : MBind (Py.M S) := fun A B k m => Py.bind m k.

(* ===================================================================== *)
(** ** commands/core.py *)
(* ===================================================================== *)

Module CommandsCore.

(** [CommandResult]: [data] is an opaque payload; the handlers modelled
    here only ever pass the (string-keyed) data of an analysis result. *)
Record CommandResult : Type := mkCommandResult {
  success : bool;
  message : option string;
  data : option (gmap string string);
  should_exit : bool
}.

(** The dataclass constructor with its defaults
    ([message=None, data=None, should_exit=False]). *)
Definition CommandResult_ (ok : bool) (msg : option string) : CommandResult :=
  mkCommandResult ok msg None false.

Record AnalysisResult : Type := mkAnalysisResult {
  title : string;
  result_data : gmap string string;
  summary : string
}.

(** The state of a [StoppableAnalysis] object. *)
Record StoppableAnalysis : Type := mkStoppable { _stop_requested : bool }.

(** [StoppableAnalysis.__init__] *)
Definition StoppableAnalysis_init : StoppableAnalysis := mkStoppable false.

(** [StoppableAnalysis.stop] *)
Definition stop (a : StoppableAnalysis) : StoppableAnalysis := mkStoppable true.

(** [StoppableAnalysis.should_stop] *)
Definition should_stop (a : StoppableAnalysis) : bool := _stop_requested a.

End CommandsCore.

(* ===================================================================== *)
(** ** analysis/analysis.py *)
(* ===================================================================== *)

Module SampleAnalysis.
Import CommandsCore.

Definition stopped_early : AnalysisResult :=
  mkAnalysisResult "Sample Analysis" ∅ "Stopped early.".
Definition completed : AnalysisResult :=
  mkAnalysisResult "Sample Analysis" ∅ "Completed successfully.".

(** [for i in range(n): if self.should_stop(): return ...; time.sleep(1)]
    followed by the final [return].  The flag is written by another
    thread, so the value read in iteration [i] is given by [flag_at i]. *)
Fixpoint run_from (n i : nat) (flag_at : nat -> bool) : AnalysisResult :=
  match n with
  | 0 => completed
  | S n' => if flag_at i then stopped_early else run_from n' (S i) flag_at
  end.

(** [SampleAnalysis.run] *)
Definition run (flag_at : nat -> bool) : AnalysisResult := run_from 100 0 flag_at.

End SampleAnalysis.

(* ===================================================================== *)
(** ** analysis/core.py *)
(* ===================================================================== *)

Module AnalysisCore.
Import Py CommandsCore.

(** The part of [threading.Thread] that the runner uses.  A thread object
    is created unstarted, is alive from [start()] until its target has
    returned or raised, and then stays finished. *)
Inductive Thread : Type :=
| Unstarted
| Alive
| Finished.

(** [Thread.is_alive] *)
Definition is_alive (t : Thread) : bool :=
  match t with Alive => true | _ => false end.

(** [Thread.start]: a thread object can be started once. *)
Definition Thread_start (t : Thread) : outcome unit * Thread :=
  match t with
  | Unstarted => (Return tt, Alive)
  | _ => (Raise (Exn RuntimeError "threads can only be started once"), t)
  end.

(** Addresses of the analysis objects in the store (a list, indexed by
    address). *)
Definition addr : Type := nat.

(** An [AsyncAnalysisRunner] object.  [analysis] is a reference: several
    runners may wrap the same analysis object. *)
Record AsyncAnalysisRunner : Type := mkRunner {
  analysis : addr;
  thread : Thread;
  result : option AnalysisResult;
  exception : option exn;
  id : string
}.

(** [AsyncAnalysisRunner.__init__], with the value drawn by [uuid.uuid4()]. *)
Definition init (a : addr) (uuid : string) : AsyncAnalysisRunner :=
  mkRunner a Unstarted None None uuid.

Definition set_thread (t : Thread) (r : AsyncAnalysisRunner) : AsyncAnalysisRunner :=
  mkRunner (analysis r) t (result r) (exception r) (id r).

(** What [self.analysis.run()] does when the worker thread executes it. *)
Inductive body_outcome : Type :=
| Returned (v : AnalysisResult)
| Raised (e : exn).

(** [AsyncAnalysisRunner._run]: only instances of [Exception] are
    captured; any other exception leaves both slots as they were. *)
Definition _run (o : body_outcome) (r : AsyncAnalysisRunner) : AsyncAnalysisRunner :=
  match o with
  | Returned v => mkRunner (analysis r) (thread r) (Some v) (exception r) (id r)
  | Raised e =>
      if is_Exception e
      then mkRunner (analysis r) (thread r) (result r) (Some e) (id r)
      else r
  end.

(** The worker thread from the end of the body on: [_run] stores the
    outcome, then the thread is no longer alive. *)
Definition worker_finish (o : body_outcome) (r : AsyncAnalysisRunner)
  : AsyncAnalysisRunner :=
  set_thread Finished (_run o r).

(** [AsyncAnalysisRunner.start] *)
Definition start (r : AsyncAnalysisRunner) : outcome unit * AsyncAnalysisRunner :=
  let '(o, t) := Thread_start (thread r) in (o, set_thread t r).

(** [AsyncAnalysisRunner.stop]: [self.analysis.stop()], on the store of
    analysis objects. *)
Definition stop (r : AsyncAnalysisRunner) : M (list StoppableAnalysis) unit :=
  modify (alter CommandsCore.stop (analysis r)).

(** [AsyncAnalysisRunner.is_running] *)
Definition is_running (r : AsyncAnalysisRunner) : bool := is_alive (thread r).

(** [AsyncAnalysisRunner.get_result]; an exception instance is truthy. *)
Definition get_result (r : AsyncAnalysisRunner) : outcome (option AnalysisResult) :=
  if is_alive (thread r) then Return None
  else match exception r with
       | Some e => Raise e
       | None => Return (result r)
       end.

(** *** The life of one runner

    The calls made on a runner by the main thread and the end of the
    wrapped body on the worker thread, as atomic steps that interleave
    in any order.  The worker can only finish while the thread is alive. *)
Inductive event : Type :=
| CallStart
| CallStop
| CallIsRunning
| CallGetResult
| BodyEnds (o : body_outcome).

Definition body_end (ev : event) : Prop :=
  match ev with BodyEnds _ => True | _ => False end.

(** The state observed by these steps: the runner and the analysis
    objects. *)
Definition state : Type := AsyncAnalysisRunner * list StoppableAnalysis.

Inductive step : state -> event -> state -> Prop :=
| step_start r objs :
    step (r, objs) CallStart ((start r).2, objs)
| step_stop r objs :
    step (r, objs) CallStop (r, (stop r objs).2)
| step_is_running r objs :
    step (r, objs) CallIsRunning (r, objs)
| step_get_result r objs :
    step (r, objs) CallGetResult (r, objs)
| step_body_ends r objs o :
    thread r = Alive ->
    step (r, objs) (BodyEnds o) (worker_finish o r, objs).

Inductive steps : state -> list event -> state -> Prop :=
| steps_nil s : steps s [] s
| steps_cons s ev s' evs s'' :
    step s ev s' -> steps s' evs s'' -> steps s (ev :: evs) s''.

(** The two slots are empty until the worker has finished. *)
Definition slots_empty_until_finished (r : AsyncAnalysisRunner) : Prop :=
  thread r = Finished \/ (result r = None /\ exception r = None).

(** What [get_result] gives once the body has ended with [o]: the value,
    the captured exception, or nothing when the exception is not an
    [Exception] (then [_run] has captured nothing). *)
Definition result_of (o : body_outcome) : outcome (option AnalysisResult) :=
  match o with
  | Returned v => Return (Some v)
  | Raised e => if is_Exception e then Raise e else Return None
  end.

End AnalysisCore.

(* ===================================================================== *)
(** ** utils/input_validation.py *)
(* ===================================================================== *)

Module InputValidation.
Import Py.

(** What the terminal delivers to one call of [input()]: a line, or the
    interrupt key.  A terminal with nothing left is at end of file. *)
Inductive tty_event : Type :=
| Line (s : string)
| CtrlC.

(** [input(prompt)] *)
Definition input (tty : list tty_event) : outcome string * list tty_event :=
  match tty with
  | Line s :: rest => (Return s, rest)
  | CtrlC :: rest => (Raise (Exn KeyboardInterrupt ""), rest)
  | [] => (Raise (Exn EOFError "EOF when reading a line"), [])
  end.

(** [is_non_empty_string] *)
Definition is_non_empty_string (value : string) : bool :=
  negb (String.eqb (strip value) "").

(** [is_valid_alias_subcommand] *)
Definition is_valid_alias_subcommand (value : string) (alias_subcommands : list string)
  : bool :=
  bool_decide (value ∈ alias_subcommands).

(** [is_valid_analysis_subcommand] *)
Definition is_valid_analysis_subcommand (value : string) (valid_choices : list string)
  : bool :=
  bool_decide (value ∈ valid_choices).

(** A validator, by its [__code__.co_argcount]. *)
Inductive validator : Type :=
| Unary (f : string -> bool)
| Binary (f : string -> list string -> bool).

(** [validator(value, *args) if co_argcount > 1 else validator(value)];
    the callers pass no extra argument or one list. *)
Definition apply_validator (v : validator) (value : string) (args : option (list string))
  : outcome bool :=
  match v, args with
  | Unary f, _ => Return (f value)
  | Binary f, Some a => Return (f value a)
  | Binary f, None =>
      Raise (Exn TypeError "missing 1 required positional argument")
  end.

(** [all(... for validator in validators)]: stops at the first validator
    that rejects. *)
Fixpoint all_validators (vs : list validator) (value : string)
  (args : option (list string)) : outcome bool :=
  match vs with
  | [] => Return true
  | v :: vs' =>
      match apply_validator v value args with
      | Return true => all_validators vs' value args
      | other => other
      end
  end.

(** [get_validated_input]: reads until an input passes every validator.
    Each round consumes one terminal event, so the recursion is on the
    events that remain. *)
Fixpoint get_validated_input (vs : list validator) (args : option (list string))
  (tty : list tty_event) : outcome string * list tty_event :=
  match tty with
  | [] => (Raise (Exn EOFError "EOF when reading a line"), [])
  | CtrlC :: rest => (Raise (Exn KeyboardInterrupt ""), rest)
  | Line value :: rest =>
      match all_validators vs value args with
      | Return true => (Return value, rest)
      | Return false => get_validated_input vs args rest
      | Raise e => (Raise e, rest)
      end
  end.

End InputValidation.

(* ===================================================================== *)
(** ** commands/manager.py, commands/alias.py, commands/analysis.py *)
(* ===================================================================== *)

Module Commands.
Import Py CommandsCore InputValidation.

(** The handler classes registered by [_init_commands]. *)
Inductive Command : Type :=
| ClearScreenCommand
| InitPortfolioCommand
| LoadPortfolioCommand
| UnloadPortfolioCommand
| AliasCommand
| ListPortfoliosCommand
| InfoCommand
| PortfolioOverviewCommand
| ExchangeStatusCommand
| ExitCommand
| TradeAssetCommand
| TradeCryptoCommand
| LoadLastPortfolioCommand
| PortfolioPerformanceCommand
| AnalysisCommand
| ListAvailableTickersCommand
| AddCustomTickersCommand
| BannerCommand.

(** The alias file [configs/aliases.json] as [_load_aliases] sees it: no
    file, a file that cannot be opened or parsed, or the flat JSON
    object of strings that [_save_aliases] writes. *)
Inductive FileContent : Type :=
| NoFile
| Unreadable
| JsonObject (table : gmap string string).

(** Addresses of runner objects in the store. *)
Definition raddr : Type := nat.

(** The [CommandManager] object, the [AnalysisCommand] object that
    [_init_commands] creates, the store of the objects they share, and
    the environment the code reads and writes. *)
Record World : Type := mkWorld {
  (* CommandManager *)
  loaded_portfolio_name : option string;
  analysis_runners : list raddr;
  commands : option (gmap string Command);
  aliases : option (gmap string string);
  (* AnalysisCommand *)
  analyses : gmap string AnalysisCore.addr;
  running_analyses : gmap string raddr;
  (* store *)
  runner_objs : list AnalysisCore.AsyncAnalysisRunner;
  analysis_objs : list StoppableAnalysis;
  (* environment *)
  tty : list tty_event;
  alias_file : FileContent;
  alias_file_writable : bool;
  uuids_drawn : nat
}.

Definition set_aliases (a : option (gmap string string)) (w : World) : World :=
  mkWorld (loaded_portfolio_name w) (analysis_runners w) (commands w) a
    (analyses w) (running_analyses w) (runner_objs w) (analysis_objs w)
    (tty w) (alias_file w) (alias_file_writable w) (uuids_drawn w).

Definition set_alias_file (f : FileContent) (w : World) : World :=
  mkWorld (loaded_portfolio_name w) (analysis_runners w) (commands w) (aliases w)
    (analyses w) (running_analyses w) (runner_objs w) (analysis_objs w)
    (tty w) f (alias_file_writable w) (uuids_drawn w).

Definition set_tty (t : list tty_event) (w : World) : World :=
  mkWorld (loaded_portfolio_name w) (analysis_runners w) (commands w) (aliases w)
    (analyses w) (running_analyses w) (runner_objs w) (analysis_objs w)
    t (alias_file w) (alias_file_writable w) (uuids_drawn w).

Definition set_analysis_objs (objs : list StoppableAnalysis) (w : World) : World :=
  mkWorld (loaded_portfolio_name w) (analysis_runners w) (commands w) (aliases w)
    (analyses w) (running_analyses w) (runner_objs w) objs
    (tty w) (alias_file w) (alias_file_writable w) (uuids_drawn w).

Definition draw_uuid (w : World) : World :=
  mkWorld (loaded_portfolio_name w) (analysis_runners w) (commands w) (aliases w)
    (analyses w) (running_analyses w) (runner_objs w) (analysis_objs w)
    (tty w) (alias_file w) (alias_file_writable w) (S (uuids_drawn w)).

(** A manager right after [CommandManager.__init__], in a given
    environment. *)
Definition CommandManager_init (t : list tty_event) (f : FileContent) (writable : bool)
  : World :=
  mkWorld None [] None None ∅ ∅ [] [] t f writable 0.

(** The alias table as [get_aliases] reports it: the cached one, or what
    a first access would load. *)
Definition file_table (f : FileContent) : gmap string string :=
  match f with
  | JsonObject table => table
  | NoFile | Unreadable => ∅
  end.

Definition alias_table (w : World) : gmap string string :=
  match aliases w with
  | Some a => a
  | None => file_table (alias_file w)
  end.

(** *** CommandManager: aliases *)

(** [_load_aliases]: on the first call the cache becomes [{}] and then,
    if the file exists and parses, its content; a failure is caught (a
    warning is printed) and leaves [{}]. *)
Definition _load_aliases : M World unit := fun w =>
  match aliases w with
  | None => (Return tt, set_aliases (Some (file_table (alias_file w))) w)
  | Some _ => (Return tt, w)
  end.

(** [_save_aliases]: rewrites the whole file; a failure to write is
    caught (a warning is printed) and the file keeps its content.  The
    cache is never [None] here, both callers load first. *)
Definition _save_aliases : M World unit := fun w =>
  match aliases w with
  | Some a =>
      if alias_file_writable w
      then (Return tt, set_alias_file (JsonObject a) w)
      else (Return tt, w)
  | None => (Return tt, w)
  end.

(** The statement [[alias] = command]: unpacks the string [command]
    into exactly one target, the local variable [alias]. *)
Definition unpack_one (command : string) : M World string :=
  match command with
  | String c EmptyString => ret (String c EmptyString)
  | EmptyString =>
      throw (Exn ValueError "not enough values to unpack (expected 1, got 0)")
  | _ => throw (Exn ValueError "too many values to unpack (expected 1)")
  end.

(** [CommandManager.add_alias] *)
Definition add_alias (alias command : string) : M World unit :=
  _load_aliases;;
  alias' ← unpack_one command;
  _save_aliases.

(** [CommandManager.remove_alias] *)
Definition remove_alias (alias : string) : M World unit :=
  _load_aliases;;
  w ← get;
  if bool_decide (is_Some (alias_table w !! alias))
  then modify (set_aliases (Some (delete alias (alias_table w))));; _save_aliases
  else ret tt.

(** [CommandManager.get_aliases]: a copy of the table. *)
Definition get_aliases : M World (gmap string string) :=
  _load_aliases;;
  w ← get;
  ret (alias_table w).

(** *** CommandManager: analyses *)

(** [CommandManager.stop_all_analyses] *)
Definition stop_all_analyses : M World unit := fun w =>
  (Return tt,
   set_analysis_objs
     (foldl (fun objs ra =>
               match runner_objs w !! ra with
               | Some runner =>
                   if AnalysisCore.is_running runner
                   then (AnalysisCore.stop runner objs).2
                   else objs
               | None => objs
               end)
            (analysis_objs w) (analysis_runners w))
     w).

(** [get_validated_input] on the world's terminal. *)
Definition read_validated (vs : list validator) (args : option (list string))
  : M World string := fun w =>
  let '(o, rest) := get_validated_input vs args (tty w) in (o, set_tty rest w).

(** [input(prompt)] on the world's terminal. *)
Definition read_line : M World string := fun w =>
  let '(o, rest) := input (tty w) in (o, set_tty rest w).

(** [pretty_print_info_text(commands)]: only prints, but [max] over the
    command names raises on an empty registry, and [commands.items()]
    on a registry that was never built. *)
Definition pretty_print_info_text : M World unit := fun w =>
  match commands w with
  | None =>
      (Raise (Exn AttributeError "'NoneType' object has no attribute 'items'"), w)
  | Some cmds =>
      if bool_decide (cmds = ∅)
      then (Raise (Exn ValueError "max() arg is an empty sequence"), w)
      else (Return tt, w)
  end.

(** *** commands/alias.py *)

Definition failure (msg : string) : CommandResult := CommandResult_ false (Some msg).

(** [AliasCommand._show_help] *)
Definition _show_help : M World CommandResult := ret (CommandResult_ true None).

(** [name in context.commands]; the registry has been built whenever a
    handler runs. *)
Definition registered (name : string) (w : World) : bool :=
  match commands w with
  | Some cmds => bool_decide (is_Some (cmds !! name))
  | None => false
  end.

(** [AliasCommand._set_alias] *)
Definition _set_alias : M World CommandResult :=
  pretty_print_info_text;;
  cmd_name ← read_validated [Unary is_non_empty_string] None;
  w ← get;
  if negb (registered cmd_name w)
  then ret (failure ("Command '" +:+ cmd_name +:+ "' does not exist."))
  else
    alias ← read_validated [Unary is_non_empty_string] None;
    in_aliases ← (if registered alias w then ret true
                  else a ← get_aliases; ret (bool_decide (is_Some (a !! alias))));
    if (in_aliases : bool)
    then ret (failure ("Alias '" +:+ alias +:+
                       "' already exists or conflicts with a command name."))
    else
      add_alias alias cmd_name;;
      ret (CommandResult_ true
             (Some ("Alias '" +:+ alias +:+ "' created for command '" +:+ cmd_name +:+ "'"))).

(** [AliasCommand._remove_alias] *)
Definition _remove_alias : M World CommandResult :=
  a ← get_aliases;
  if bool_decide (a = ∅)
  then ret (failure "No aliases defined.")
  else
    alias ← read_validated [Unary is_non_empty_string] None;
    if negb (bool_decide (is_Some (a !! alias)))
    then ret (failure ("Alias '" +:+ alias +:+ "' does not exist."))
    else
      remove_alias alias;;
      ret (CommandResult_ true (Some ("Alias '" +:+ alias +:+ "' removed."))).

(** [AliasCommand._list_aliases] *)
Definition _list_aliases : M World CommandResult :=
  a ← get_aliases;
  if bool_decide (a = ∅)
  then ret (CommandResult_ true (Some "No aliases defined."))
  else ret (CommandResult_ true None).

Definition valid_alias_subcommands : list string := ["set"; "remove"; "list"; "help"].

(** [AliasCommand.execute] *)
Definition AliasCommand_execute : M World CommandResult :=
  try_except_Exception
    (subcommand ← read_validated
                    [Unary is_non_empty_string; Binary is_valid_alias_subcommand]
                    (Some valid_alias_subcommands);
     if String.eqb subcommand "help" then _show_help
     else if String.eqb subcommand "list" then _list_aliases
     else if String.eqb subcommand "set" then _set_alias
     else if String.eqb subcommand "remove" then _remove_alias
     else ret (failure "Invalid subcommand. Use 'alias help' for usage information."))
    (fun e => ret (failure ("Error managing aliases: " +:+ exn_str e))).

(** *** commands/analysis.py *)

Section Handlers.

(** [str(uuid.uuid4())]: the [n]-th identifier drawn in this process. *)
Variable uuid4 : nat -> string.

(** The handlers of [commands/general.py] and [commands/portfolio.py]
    that wrap the broker, the market data and the portfolio files:
    any behaviour on the world, any result, any exception. *)
Variable external_execute : Command -> M World CommandResult.

(** [AnalysisCommand.__init__]: [_init_analyses] creates the one
    [SampleAnalysis] object and registers it; no analysis runs yet. *)
Definition AnalysisCommand_init : M World unit := fun w =>
  (Return tt,
   mkWorld (loaded_portfolio_name w) (analysis_runners w) (commands w) (aliases w)
     {[ "sample_analysis" := List.length (analysis_objs w) ]} ∅
     (runner_objs w) (analysis_objs w ++ [StoppableAnalysis_init])
     (tty w) (alias_file w) (alias_file_writable w) (uuids_drawn w)).

(** [AnalysisCommand._start_analysis], for a stoppable analysis (the
    only kind [_init_analyses] registers): the runner is created and
    started, then filed under its id and appended to the manager's
    list. *)
Definition _start_analysis (name : string) : M World CommandResult := fun w =>
  match analyses w !! name with
  | None => (Raise (Exn KeyError (repr_str name)), w)
  | Some a =>
      let uid := uuid4 (uuids_drawn w) in
      let w1 := draw_uuid w in
      match AnalysisCore.start (AnalysisCore.init a uid) with
      | (Raise e, _) => (Raise e, w1)
      | (Return _, runner) =>
          let ra := List.length (runner_objs w1) in
          (Return (CommandResult_ true (Some (name +:+ " started with ID " +:+ uid))),
           mkWorld (loaded_portfolio_name w1) (analysis_runners w1 ++ [ra])
             (commands w1) (aliases w1)
             (analyses w1) (<[uid := ra]> (running_analyses w1))
             (runner_objs w1 ++ [runner]) (analysis_objs w1)
             (tty w1) (alias_file w1) (alias_file_writable w1) (uuids_drawn w1))
      end
  end.

(** [AnalysisCommand._stop_analysis] *)
Definition _stop_analysis (analysis_id : string) : M World CommandResult := fun w =>
  match running_analyses w !! analysis_id ≫= (fun ra => runner_objs w !! ra) with
  | Some runner =>
      if AnalysisCore.is_running runner
      then (Return (CommandResult_ true
                      (Some ("Stop signal sent to analysis with ID '" +:+
                             analysis_id +:+ "'."))),
            set_analysis_objs (AnalysisCore.stop runner (analysis_objs w)).2 w)
      else (Return (failure ("No running analysis with ID '" +:+ analysis_id +:+ "'.")), w)
  | None =>
      (Return (failure ("No running analysis with ID '" +:+ analysis_id +:+ "'.")), w)
  end.

(** [AnalysisCommand._show_status]: prints one line per runner. *)
Definition _show_status : M World CommandResult := ret (CommandResult_ true None).

(** [["status", "stop"] + list(self.analyses.keys())] *)
Definition valid_analysis_subcommands (w : World) : list string :=
  ["status"; "stop"] ++ (map_to_list (analyses w)).*1.

(** [not context.loaded_portfolio_name]: [None] and the empty string
    are falsy. *)
Definition portfolio_loaded (w : World) : bool :=
  match loaded_portfolio_name w with
  | Some name => negb (String.eqb name "")
  | None => false
  end.

(** [AnalysisCommand.execute].  Every registered analysis is a
    [StoppableAnalysis], so [choice in self.analyses] leads to the
    stoppable start. *)
Definition AnalysisCommand_execute : M World CommandResult :=
  w ← get;
  if negb (portfolio_loaded w)
  then ret (failure "No portfolio loaded. Please load or create a portfolio first.")
  else
    choice ← read_validated
               [Unary is_non_empty_string; Binary is_valid_analysis_subcommand]
               (Some (valid_analysis_subcommands w));
    if String.eqb choice "status" then _show_status
    else if startswith choice "stop "
    then _stop_analysis (str_list (split_space_once choice))
    else if bool_decide (is_Some (analyses w !! choice))
    then _start_analysis choice
    else ret (failure "Unknown analysis.").

(** *** Dispatch *)

(** [Command.execute], by handler class. *)
Definition execute (c : Command) : M World CommandResult :=
  match c with
  | AliasCommand => AliasCommand_execute
  | AnalysisCommand => AnalysisCommand_execute
  | ExitCommand => ret (mkCommandResult true (Some "exit") None true)
  | ClearScreenCommand | BannerCommand => ret (CommandResult_ true None)
  | InfoCommand => pretty_print_info_text;; ret (CommandResult_ true None)
  | other => external_execute other
  end.

(** The dictionary literal of [_init_commands]. *)
Definition command_table : gmap string Command :=
  list_to_map
    [ ("clear", ClearScreenCommand); ("init", InitPortfolioCommand);
      ("load", LoadPortfolioCommand); ("unload", UnloadPortfolioCommand);
      ("alias", AliasCommand); ("list", ListPortfoliosCommand);
      ("help", InfoCommand); ("overview", PortfolioOverviewCommand);
      ("info", InfoCommand); ("exchanges", ExchangeStatusCommand);
      ("exit", ExitCommand); ("trade_asset", TradeAssetCommand);
      ("trade_crypto", TradeCryptoCommand); ("load_last", LoadLastPortfolioCommand);
      ("performance", PortfolioPerformanceCommand); ("analysis", AnalysisCommand);
      ("list_tickers", ListAvailableTickersCommand);
      ("add_tickers", AddCustomTickersCommand); ("banner", BannerCommand) ].

(** [self.commands = self._init_commands()] *)
Definition _init_commands : M World unit :=
  AnalysisCommand_init;;
  modify (fun w =>
    mkWorld (loaded_portfolio_name w) (analysis_runners w) (Some command_table)
      (aliases w) (analyses w) (running_analyses w) (runner_objs w) (analysis_objs w)
      (tty w) (alias_file w) (alias_file_writable w) (uuids_drawn w)).

(** The registry a dispatch works with: the one already built, or the
    one of [_init_commands]. *)
Definition registry (w : World) : gmap string Command :=
  default command_table (commands w).

(** The first lines of [execute_command]: load the aliases, build the
    registry if it is not there yet. *)
Definition prepare : M World unit :=
  _load_aliases;;
  w0 ← get;
  if commands w0 is None then _init_commands else ret tt.

(** [self.aliases.get(command_name, command_name)] *)
Definition resolve (command_name : string) (w : World) : string :=
  default command_name (alias_table w !! command_name).

Definition unknown_command (command_name : string) : CommandResult :=
  failure ("Unknown command: " +:+ command_name +:+
           String (ascii_of_nat 10) "Type 'help' for available commands.").

(** [CommandManager.execute_command] *)
Definition execute_command (command_name : string) : M World CommandResult :=
  _load_aliases;;
  w0 ← get;
  (if commands w0 is None then _init_commands else ret tt);;
  w ← get;
  let actual_command := resolve command_name w in
  match default ∅ (commands w) !! actual_command with
  | Some handler => execute handler
  | None => ret (unknown_command command_name)
  end.

(** *** The command loop *)

Inductive loop_control : Type :=
| NextIteration
| LeaveLoop.

(** One iteration of [while True] in [run_command_loop]: the [try]
    block with its two handlers. *)
Definition loop_iteration : M World loop_control := fun w =>
  match (command ← read_line;
         result ← execute_command (lower (strip command));
         if should_exit result
         then stop_all_analyses;; ret LeaveLoop
         else ret NextIteration) w with
  | (Raise e, w') =>
      if is_KeyboardInterrupt e then (stop_all_analyses;; ret LeaveLoop) w'
      else if is_Exception e then (stop_all_analyses;; ret NextIteration) w'
      else (Raise e, w')
  | r => r
  end.

(** [CommandManager.run_command_loop], for at most [fuel] iterations;
    [None] when the loop is still running after them. *)
Fixpoint run_command_loop (fuel : nat) : World -> option (outcome unit * World) :=
  fun w =>
    match fuel with
    | 0 => None
    | S fuel' =>
        match loop_iteration w with
        | (Return NextIteration, w') => run_command_loop fuel' w'
        | (Return LeaveLoop, w') => Some (Return tt, w')
        | (Raise e, w') => Some (Raise e, w')
        end
    end.

End Handlers.

End Commands.

(* ===================================================================== *)
(** ** Concrete sessions *)
(* ===================================================================== *)

Module Scenarios.
Import Py CommandsCore InputValidation Commands.

(** [MockCommand.execute] of [tests/test_commands_alias.py], standing in
    for the handlers that talk to the broker. *)
Definition MockCommand_execute : Command -> M World CommandResult :=
  fun _ => ret (CommandResult_ true None).

(** Two identifiers as [uuid.uuid4()] prints them. *)
Definition uuid4 (n : nat) : string :=
  match n with
  | 0 => "1b4e28ba-2fa1-4d3b-a3f5-9c1d6e7f8a90"
  | _ => "6fa459ea-ee8a-4ca4-894e-db77e160355e"
  end.

Definition dispatch : string -> M World CommandResult :=
  execute_command uuid4 MockCommand_execute.

(** A new manager, no alias file yet; the user types [lines]. *)
Definition fresh_session (lines : list string) : World :=
  CommandManager_init (Line <$> lines) NoFile true.

(** A manager whose alias file holds [table]. *)
Definition session_with_alias_file (table : gmap string string) (lines : list string)
  : World :=
  CommandManager_init (Line <$> lines) (JsonObject table) true.

(** A manager with the portfolio [demo] loaded. *)
Definition session_with_portfolio (lines : list string) : World :=
  mkWorld (Some "demo") [] None None ∅ ∅ [] [] (Line <$> lines) NoFile true 0.

(** The state in which a handler runs: aliases loaded, registry built. *)
Definition dispatching (w : World) : World := (prepare w).2.

(** The user runs [alias], picks [set], names the command [help] and
    asks for the alias [h]. *)
Definition after_alias_set : outcome CommandResult * World :=
  dispatch "alias" (fresh_session ["set"; "help"; "h"]).

(** The user starts the sample analysis, runs [analysis] again and types
    [stop <id>] with the id just shown, then [stop]. *)
Definition analysis_started : outcome CommandResult * World :=
  dispatch "analysis"
    (session_with_portfolio ["sample_analysis"; "stop " +:+ uuid4 0; "stop"]).

Definition stop_attempt : outcome CommandResult * World :=
  dispatch "analysis" analysis_started.2.

(** The terminal is at end of file when the analysis command prompts. *)
Definition analysis_at_eof : outcome CommandResult * World :=
  dispatch "analysis" (session_with_portfolio []).

End Scenarios.

(* ===================================================================== *)
(** ** Sequences of alias operations *)
(* ===================================================================== *)

Module AliasSessions.
Import Py Commands.

(** The calls a session makes on the manager's alias methods. *)
Inductive alias_call : Type :=
| CallAddAlias (alias command : string)
| CallRemoveAlias (alias : string)
| CallGetAliases.

Definition run_alias_call (w : World) (c : alias_call) : World :=
  match c with
  | CallAddAlias alias command => (add_alias alias command w).2
  | CallRemoveAlias alias => (remove_alias alias w).2
  | CallGetAliases => (get_aliases w).2
  end.

Definition run_alias_calls (calls : list alias_call) (w : World) : World :=
  foldl run_alias_call w calls.

(** The file can be written and holds what the manager has in memory. *)
Definition file_in_step (w : World) : Prop :=
  alias_file_writable w = true /\ file_table (alias_file w) = alias_table w.

(** The next process: a new [CommandManager] over the alias file that
    this one leaves behind. *)
Definition restart (w : World) : World :=
  CommandManager_init [] (alias_file w) (alias_file_writable w).

(** A computation that raises, if at all, an instance of [Exception] or
    a [KeyboardInterrupt]: the two kinds that [run_command_loop] has a
    handler for. *)
Definition raises_only_handled {A : Type} (m : M World A) : Prop :=
  forall w e w', m w = (Raise e, w') ->
    is_Exception e = true \/ is_KeyboardInterrupt e = true.

End AliasSessions.

(* ===================================================================== *)
(** ** The sample analysis *)
(* ===================================================================== *)

Module SampleAnalysisTheory.
Import CommandsCore SampleAnalysis.

(** The loop returns the early outcome as soon as one of its [n] reads
    of the flag sees it set. *)
Lemma run_from_stops n i flag_at k :
  k < n -> flag_at (i + k) = true -> run_from n i flag_at = stopped_early.
Proof.
  revert i k. induction n as [|n IH]; intros i k Hk Hflag; [lia|].
  simpl. destruct (flag_at i) eqn:Hi; [done|].
  destruct k as [|k]; [by rewrite Nat.add_0_r, Hi in Hflag|].
  apply (IH (S i) k); [lia|]. by rewrite Nat.add_succ_comm.
Qed.

Lemma run_from_completes n i flag_at :
  (forall k, k < n -> flag_at (i + k) = false) -> run_from n i flag_at = completed.
Proof.
  revert i. induction n as [|n IH]; intros i Hflag; [done|].
  simpl. rewrite <- (Nat.add_0_r i) at 1. rewrite Hflag by lia.
  apply IH. intros k Hk. rewrite Nat.add_succ_comm. apply Hflag. lia.
Qed.

(** [run] stops early exactly when one of its hundred reads of the flag
    sees it set. *)
Lemma run_stopped_early_iff flag_at :
  run flag_at = stopped_early <-> exists k, k < 100 /\ flag_at k = true.
Proof.
  split.
  - intros Hrun.
    destruct (decide (Exists (fun k => flag_at k = true) (seq 0 100))) as [Hex|Hno].
    + apply Exists_exists in Hex as (k & Hk & Hflag).
      apply elem_of_seq in Hk. exists k. split; [lia|done].
    + exfalso. unfold run in Hrun. rewrite run_from_completes in Hrun; [done|].
      intros k Hk. simpl. destruct (flag_at k) eqn:Hflag; [|done].
      exfalso. apply Hno, Exists_exists. exists k. split; [|done].
      apply elem_of_seq. lia.
  - intros (k & Hk & Hflag). by apply (run_from_stops 100 0 flag_at k).
Qed.

End SampleAnalysisTheory.

(* ===================================================================== *)
(** ** The runner: results, lifecycle, stop and start *)
(* ===================================================================== *)

Module RunnerTheory.
Import Py CommandsCore AnalysisCore.

Lemma start_thread r :
  thread (start r).2 = match thread r with Unstarted => Alive | t => t end.
Proof. unfold start. by destruct (thread r). Qed.

Lemma start_slots r :
  result (start r).2 = result r /\ exception (start r).2 = exception r.
Proof. unfold start. by destruct (thread r). Qed.

Lemma step_keeps_slots_empty s ev s' :
  step s ev s' -> slots_empty_until_finished s.1 -> slots_empty_until_finished s'.1.
Proof.
  unfold slots_empty_until_finished.
  destruct 1 as [r objs| | | |r objs o Halive]; simpl; try done.
  - intros [Hfin|[Hres Hexc]].
    + left. by rewrite start_thread, Hfin.
    + right. destruct (start_slots r) as [-> ->]. done.
  - intros _. by left.
Qed.

Lemma steps_keep_slots_empty s evs s' :
  steps s evs s' -> slots_empty_until_finished s.1 -> slots_empty_until_finished s'.1.
Proof.
  induction 1 as [|s ev s1 evs s2 Hstep _ IH]; [done|].
  intros H. apply IH. by eapply step_keeps_slots_empty.
Qed.

(** Once the thread has left [Unstarted] it never returns there. *)
Lemma step_started s ev s' :
  step s ev s' -> thread s.1 <> Unstarted -> thread s'.1 <> Unstarted.
Proof.
  destruct 1 as [r objs| | | |r objs o Halive]; simpl; try done.
  intros H. rewrite start_thread. by destruct (thread r).
Qed.

Lemma steps_started s evs s' :
  steps s evs s' -> thread s.1 <> Unstarted -> thread s'.1 <> Unstarted.
Proof.
  induction 1 as [|s ev s1 evs s2 Hstep _ IH]; [done|].
  intros H. apply IH. by eapply step_started.
Qed.

(** A finished thread stays finished, with its slots as the worker left
    them. *)
Lemma step_finished s ev s' :
  step s ev s' -> thread s.1 = Finished -> s'.1 = s.1.
Proof.
  destruct 1 as [r objs| | | |r objs o Halive]; simpl; try done.
  - intros H. unfold start. rewrite H. simpl. by destruct r; simpl in *; subst.
  - congruence.
Qed.

Lemma steps_finished s evs s' :
  steps s evs s' -> thread s.1 = Finished -> s'.1 = s.1.
Proof.
  induction 1 as [|s ev s1 evs s2 Hstep _ IH]; [done|].
  intros H. pose proof (step_finished _ _ _ Hstep H) as Heq.
  rewrite <- Heq. apply IH. by rewrite Heq.
Qed.

(** The body ends at most once: no [BodyEnds] step is possible from a
    finished thread on. *)
Lemma steps_no_second_body_end s evs s' o :
  steps s evs s' -> thread s.1 = Finished -> BodyEnds o ∈ evs -> False.
Proof.
  induction 1 as [|s ev s1 evs s2 Hstep _ IH]; [by intros _ ?%elem_of_nil|].
  intros Hfin Hin.
  pose proof (step_finished _ _ _ Hstep Hfin) as Heq.
  apply elem_of_cons in Hin as [<-|Hin].
  - inversion Hstep; subst; simpl in *; congruence.
  - apply IH; [congruence|done].
Qed.

(** While the thread is alive, only the end of the body makes it stop
    being alive. *)
Lemma steps_alive_until_body_ends s evs s' :
  steps s evs s' -> thread s.1 = Alive -> thread s'.1 <> Alive ->
  exists o, BodyEnds o ∈ evs.
Proof.
  induction 1 as [|s ev s1 evs s2 Hstep _ IH]; [congruence|].
  intros Halive Hend.
  destruct Hstep as [r objs|r objs|r objs|r objs|r objs o _]; simpl in *.
  - destruct IH as [o Ho]; [by rewrite start_thread, Halive|done|].
    exists o. by right.
  - destruct IH as [o Ho]; [done..|]. exists o. by right.
  - destruct IH as [o Ho]; [done..|]. exists o. by right.
  - destruct IH as [o Ho]; [done..|]. exists o. by right.
  - exists o. by left.
Qed.

Lemma get_result_worker_finish o r :
  result r = None -> exception r = None ->
  get_result (worker_finish o r) = result_of o.
Proof.
  intros Hres Hexc. unfold get_result, worker_finish, _run, result_of.
  destruct o as [v|e]; simpl; [by rewrite Hexc|].
  destruct (is_Exception e); simpl; [done|]. by rewrite Hexc, Hres.
Qed.

Lemma steps_result_of s evs s' o :
  steps s evs s' -> thread s.1 <> Finished ->
  result s.1 = None -> exception s.1 = None ->
  BodyEnds o ∈ evs ->
  thread s'.1 = Finished /\ get_result s'.1 = result_of o.
Proof.
  induction 1 as [|s ev s1 evs s2 Hstep Hsteps IH]; [by intros ? ? ? ?%elem_of_nil|].
  intros Hnf Hres Hexc Hin.
  destruct Hstep as [r objs|r objs|r objs|r objs|r objs o' Halive]; simpl in *.
  - apply elem_of_cons in Hin as [?|Hin]; [done|].
    destruct (start_slots r) as [Hr He].
    apply IH; simpl; [|congruence..|done].
    rewrite start_thread. by destruct (thread r).
  - apply elem_of_cons in Hin as [?|Hin]; [done|]. by apply IH.
  - apply elem_of_cons in Hin as [?|Hin]; [done|]. by apply IH.
  - apply elem_of_cons in Hin as [?|Hin]; [done|]. by apply IH.
  - assert (Hfin : thread (worker_finish o' r) = Finished) by done.
    pose proof (steps_finished _ _ _ Hsteps Hfin) as Heq. simpl in Heq.
    apply elem_of_cons in Hin as [Ho|Hin].
    + injection Ho as ->. rewrite Heq. split; [done|].
      by apply get_result_worker_finish.
    + exfalso. by eapply steps_no_second_body_end.
Qed.

Lemma get_result_while_running r :
  is_running r = true -> get_result r = Return None.
Proof. unfold is_running, get_result. by intros ->. Qed.

Lemma init_fresh a uuid :
  thread (init a uuid) = Unstarted /\ result (init a uuid) = None /\
  exception (init a uuid) = None.
Proof. done. Qed.

(** C5. A runner is observed after any interleaving [evs] of calls and
    worker progress since its creation.  While the thread is alive,
    [get_result] returns [None]; if the body has returned [v], the thread
    is no longer alive and [get_result] returns [v]; if the body has
    raised an [Exception], [get_result] raises that same exception.
    [get_result] is a step that is enabled in every state and changes
    nothing: it does not wait for the thread. *)
Theorem get_result_spec (a : addr) (uuid : string) (objs objs' : list StoppableAnalysis)
    (evs : list event) (r : AsyncAnalysisRunner) :
  steps (init a uuid, objs) evs (r, objs') ->
  (is_running r = true -> get_result r = Return None) /\
  (forall v, BodyEnds (Returned v) ∈ evs ->
     is_running r = false /\ get_result r = Return (Some v)) /\
  (forall e, is_Exception e = true -> BodyEnds (Raised e) ∈ evs ->
     is_running r = false /\ get_result r = Raise e) /\
  step (r, objs') CallGetResult (r, objs').
Proof.
  intros Hsteps. split; [apply get_result_while_running|].
  assert (Hend : forall o, BodyEnds o ∈ evs ->
            is_running r = false /\ get_result r = result_of o).
  { intros o Hin.
    destruct (steps_result_of _ _ _ o Hsteps) as [Hfin Hres]; try done.
    simpl in *. split; [|done]. unfold is_running. by rewrite Hfin. }
  split; [|split].
  - intros v Hin. by apply (Hend (Returned v)).
  - intros e He Hin. destruct (Hend (Raised e) Hin) as [? Hres].
    split; [done|]. simpl in Hres. by rewrite He in Hres.
  - constructor.
Qed.

Lemma get_result_spec_witness :
  steps (init 0 "r1", [StoppableAnalysis_init])
        [CallStart; CallStop; BodyEnds (Returned SampleAnalysis.stopped_early)]
        (mkRunner 0 Finished (Some SampleAnalysis.stopped_early) None "r1",
         [mkStoppable true]) /\
  get_result (mkRunner 0 Finished (Some SampleAnalysis.stopped_early) None "r1")
  = Return (Some SampleAnalysis.stopped_early).
Proof.
  assert (H : steps (init 0 "r1", [StoppableAnalysis_init])
        [CallStart; CallStop; BodyEnds (Returned SampleAnalysis.stopped_early)]
        (mkRunner 0 Finished (Some SampleAnalysis.stopped_early) None "r1",
         [mkStoppable true])).
  { eapply steps_cons; [apply step_start|].
    eapply steps_cons; [apply step_stop|].
    eapply steps_cons; [by apply step_body_ends|].
    apply steps_nil. }
  split; [exact H|].
  apply (get_result_spec _ _ _ _ _ _ H).
  apply list_elem_of_further, list_elem_of_further, list_elem_of_here.
Defined.

(** C6. For a runner that has not been started, [start] succeeds and
    [is_running] is true in the state it produces.  In whatever state
    the runner is observed afterwards: if [is_running] is false, the end
    of the body (a return or a raise) is among the steps taken since the
    start; and if [is_running] is true, [get_result] returns [None]. *)
Theorem runner_lifecycle (r r' : AsyncAnalysisRunner) (objs objs' : list StoppableAnalysis)
    (evs : list event) :
  thread r = Unstarted ->
  steps ((start r).2, objs) evs (r', objs') ->
  (start r).1 = Return tt /\
  is_running (start r).2 = true /\
  (is_running r' = false -> exists o, BodyEnds o ∈ evs) /\
  (is_running r' = true -> get_result r' = Return None).
Proof.
  intros Hun Hsteps.
  assert (Halive : thread (start r).2 = Alive) by by rewrite start_thread, Hun.
  split; [unfold start; by rewrite Hun|].
  split; [unfold is_running; by rewrite Halive|].
  split; [|apply get_result_while_running].
  intros Hstopped.
  apply (steps_alive_until_body_ends _ _ _ Hsteps Halive).
  simpl. unfold is_running in Hstopped. by destruct (thread r').
Qed.

Lemma runner_lifecycle_witness :
  thread (init 0 "r1") = Unstarted /\
  is_running (start (init 0 "r1")).2 = true /\
  exists o, BodyEnds o ∈ [CallIsRunning; BodyEnds (Raised (Exn ValueError "bad data"))].
Proof.
  split; [reflexivity|].
  assert (H : steps ((start (init 0 "r1")).2, [StoppableAnalysis_init])
            [CallIsRunning; BodyEnds (Raised (Exn ValueError "bad data"))]
            (mkRunner 0 Finished None (Some (Exn ValueError "bad data")) "r1",
             [StoppableAnalysis_init])).
  { eapply steps_cons; [apply step_is_running|].
    eapply steps_cons; [by apply step_body_ends|].
    apply steps_nil. }
  destruct (runner_lifecycle (init 0 "r1") _ _ _ _ eq_refl H) as (_ & Hrun & Hend & _).
  split; [exact Hrun|]. apply Hend. reflexivity.
Defined.

(** C9. In every state of the runner (any thread state, any content of
    the result and exception slots), [stop] returns normally, is
    enabled as a step that does not wait for anything, leaves the runner
    object as it is, and changes the store of analysis objects only at
    the wrapped analysis, whose stop flag becomes true. *)
Theorem stop_only_sets_flag (r : AsyncAnalysisRunner) (objs : list StoppableAnalysis) :
  (stop r objs).1 = Return tt /\
  step (r, objs) CallStop (r, (stop r objs).2) /\
  (forall a, a <> analysis r -> (stop r objs).2 !! a = objs !! a) /\
  (stop r objs).2 !! analysis r = (fun _ => mkStoppable true) <$> objs !! analysis r.
Proof.
  split; [done|]. split; [constructor|]. split.
  - intros a Hne. simpl. by apply list_lookup_alter_ne.
  - simpl. by rewrite list_lookup_alter_eq.
Qed.

(** C10. Once [start] has been called on an unstarted runner, every
    later call of [start] on that runner, whatever has happened in
    between, raises [RuntimeError] and leaves the runner as it is: the
    thread is not started again and the slots are not touched. *)
Theorem start_twice_raises (r r' : AsyncAnalysisRunner)
    (objs objs' : list StoppableAnalysis) (evs : list event) :
  thread r = Unstarted ->
  steps ((start r).2, objs) evs (r', objs') ->
  start r' = (Raise (Exn RuntimeError "threads can only be started once"), r').
Proof.
  intros Hun Hsteps.
  assert (Hst : thread r' <> Unstarted).
  { apply (steps_started _ _ _ Hsteps). simpl. by rewrite start_thread, Hun. }
  unfold start. destruct r' as [a t res exc i]; simpl in *. by destruct t.
Qed.

Lemma start_twice_raises_witness :
  thread (init 0 "r1") = Unstarted /\
  start (start (init 0 "r1")).2
  = (Raise (Exn RuntimeError "threads can only be started once"),
     (start (init 0 "r1")).2).
Proof.
  split; [reflexivity|].
  apply (start_twice_raises (init 0 "r1") _ [] [] [] eq_refl). apply steps_nil.
Defined.

End RunnerTheory.

(* ===================================================================== *)
(** ** Aliases and dispatch *)
(* ===================================================================== *)

Module DispatchTheory.
Import Py CommandsCore InputValidation Commands.

#[local] Arguments alias_table : simpl never.

Ltac run :=
  unfold mbind, M_bind, mret, M_ret, bind, ret, throw, get, modify in *.

(** *** Loading and saving *)

Lemma load_aliases_spec w :
  _load_aliases w = (Return tt, set_aliases (Some (alias_table w)) w).
Proof.
  unfold _load_aliases, alias_table. destruct w as [? ? ? [a|] ? ? ? ? ? ? ? ?]; done.
Qed.

Lemma alias_table_loaded a w : alias_table (set_aliases (Some a) w) = a.
Proof. done. Qed.

Lemma get_aliases_spec w :
  get_aliases w = (Return (alias_table w), set_aliases (Some (alias_table w)) w).
Proof. unfold get_aliases. run. by rewrite load_aliases_spec. Qed.

(** Loading is only a cache fill: nothing observable changes. *)
Lemma set_aliases_loaded_id w a :
  aliases w = Some a -> set_aliases (Some a) w = w.
Proof. destruct w; simpl. by intros ->. Qed.

(** [add_alias] never changes the table: the unpacking statement binds
    a local name, or raises before the file is rewritten. *)
Lemma add_alias_table alias command w :
  alias_table (add_alias alias command w).2 = alias_table w.
Proof.
  unfold add_alias. run. rewrite load_aliases_spec.
  destruct command as [|c [|c' rest]]; simpl; try done.
  unfold _save_aliases. simpl. by destruct (alias_file_writable w).
Qed.

Lemma add_alias_raises alias command w :
  String.length command <> 1 ->
  exists msg, add_alias alias command w
              = (Raise (Exn ValueError msg), set_aliases (Some (alias_table w)) w).
Proof.
  intros Hlen. unfold add_alias. run. rewrite load_aliases_spec.
  destruct command as [|c [|c' rest]]; simpl in *; try done; eauto.
Qed.

Lemma remove_alias_present alias w :
  is_Some (alias_table w !! alias) ->
  exists w',
    remove_alias alias w = (Return tt, w') /\
    alias_table w' = delete alias (alias_table w) /\
    (alias_file_writable w = true ->
       alias_file w' = JsonObject (delete alias (alias_table w))).
Proof.
  intros Hin. unfold remove_alias. run. rewrite load_aliases_spec. simpl.
  rewrite alias_table_loaded, bool_decide_true by done. unfold _save_aliases. simpl.
  destruct (alias_file_writable w); eexists; (split; [done|]); by split.
Qed.

Lemma remove_alias_absent alias w :
  alias_table w !! alias = None ->
  remove_alias alias w = (Return tt, set_aliases (Some (alias_table w)) w).
Proof.
  intros Hout. unfold remove_alias. run. rewrite load_aliases_spec. simpl.
  rewrite alias_table_loaded, bool_decide_false; [done|]. rewrite Hout. by intros [? ?].
Qed.

(** *** The alias command *)

Lemma read_validated_spec vs args w o rest :
  get_validated_input vs args (tty w) = (o, rest) ->
  read_validated vs args w = (o, set_tty rest w).
Proof. unfold read_validated. by intros ->. Qed.

Lemma registered_registry name w :
  registered name w = true -> exists cmds, commands w = Some cmds /\ cmds <> ∅.
Proof.
  unfold registered. destruct (commands w) as [cmds|]; [|done].
  intros [c Hc]%bool_decide_eq_true. exists cmds. split; [done|].
  intros ->. by rewrite lookup_empty in Hc.
Qed.

Lemma pretty_print_info_text_registered name w :
  registered name w = true -> pretty_print_info_text w = (Return tt, w).
Proof.
  intros (cmds & Hc & Hne)%registered_registry. unfold pretty_print_info_text.
  rewrite Hc. by rewrite bool_decide_false.
Qed.

(** C7. The alias prompt of [_set_alias] is reached once a registered
    command name has been entered.  If the alias entered there is a
    registered command name or a key of the alias table, the operation
    returns the failure result that reports the conflict, and the alias
    table (as [get_aliases] shows it, and as cached when it was already
    loaded) and the alias file are what they were. *)
Theorem set_alias_conflict (w : World) (cmd_name alias : string)
    (rest1 rest2 : list tty_event) :
  get_validated_input [Unary is_non_empty_string] None (tty w) = (Return cmd_name, rest1) ->
  registered cmd_name w = true ->
  get_validated_input [Unary is_non_empty_string] None rest1 = (Return alias, rest2) ->
  registered alias w = true \/ is_Some (alias_table w !! alias) ->
  exists w',
    _set_alias w
    = (Return (failure ("Alias '" +:+ alias +:+
                        "' already exists or conflicts with a command name.")), w') /\
    alias_table w' = alias_table w /\
    alias_file w' = alias_file w /\
    alias_file_writable w' = alias_file_writable w /\
    (is_Some (aliases w) -> aliases w' = aliases w) /\
    commands w' = commands w.
Proof.
  intros Hcmd Hreg Halias Hconf. unfold _set_alias. run.
  rewrite (pretty_print_info_text_registered _ _ Hreg).
  rewrite (read_validated_spec _ _ _ _ _ Hcmd).
  assert (Hreg1 : registered cmd_name (set_tty rest1 w) = true) by done.
  rewrite Hreg1. cbn [negb]. cbv beta iota.
  rewrite (read_validated_spec _ _ (set_tty rest1 w) _ rest2) by done.
  cbv beta iota.
  assert (Hregeq : registered alias (set_tty rest1 w) = registered alias w) by done.
  rewrite Hregeq.
  destruct (registered alias w) eqn:Hra.
  - eexists. split; [done|]. by repeat split.
  - destruct Hconf as [?|Hin]; [done|].
    rewrite get_aliases_spec. cbv beta iota.
    assert (Htab : alias_table (set_tty rest2 (set_tty rest1 w)) = alias_table w) by done.
    rewrite Htab, bool_decide_true by done.
    eexists. split; [done|]. repeat split; try done.
    intros [a Ha]. simpl. unfold alias_table. by rewrite Ha.
Qed.

(** C8. [_remove_alias] on the alias entered at its prompt.  If the
    alias is not a key of the table, the result is a failure and the
    table and the file are unchanged.  If it is a key, the result is a
    success, the table is the old one without that key (every other
    entry as before), and the alias file, when it can be written, holds
    exactly the new table. *)
Theorem remove_alias_spec (w : World) (alias : string) (rest : list tty_event) :
  get_validated_input [Unary is_non_empty_string] None (tty w) = (Return alias, rest) ->
  (alias_table w !! alias = None ->
     exists msg w',
       _remove_alias w = (Return (failure msg), w') /\
       alias_table w' = alias_table w /\
       alias_file w' = alias_file w) /\
  (is_Some (alias_table w !! alias) ->
     exists w',
       _remove_alias w
       = (Return (CommandResult_ true (Some ("Alias '" +:+ alias +:+ "' removed."))), w') /\
       alias_table w' = delete alias (alias_table w) /\
       alias_table w' !! alias = None /\
       (forall k, k <> alias -> alias_table w' !! k = alias_table w !! k) /\
       (alias_file_writable w = true ->
          alias_file w' = JsonObject (delete alias (alias_table w)))).
Proof.
  intros Hread.
  assert (Hread' : read_validated [Unary is_non_empty_string] None
                     (set_aliases (Some (alias_table w)) w)
                   = (Return alias, set_tty rest (set_aliases (Some (alias_table w)) w))).
  { by apply read_validated_spec. }
  split.
  - intros Hout. unfold _remove_alias. run. rewrite get_aliases_spec.
    cbv iota beta. destruct (bool_decide (alias_table w = ∅)); [by eauto 10|].
    rewrite Hread'. cbv iota beta.
    rewrite bool_decide_false by (rewrite Hout; by intros [? ?]).
    cbn [negb]. cbv beta iota. by eauto 10.
  - intros Hin. unfold _remove_alias. run. rewrite get_aliases_spec.
    cbv iota beta. rewrite bool_decide_false.
    2:{ intros Hemp. rewrite Hemp, lookup_empty in Hin. by destruct Hin. }
    rewrite Hread'. cbv iota beta. rewrite bool_decide_true by done.
    cbn [negb]. cbv beta iota.
    destruct (remove_alias_present alias
                (set_tty rest (set_aliases (Some (alias_table w)) w)))
      as (w' & -> & Htab & Hfile); [done|].
    change (alias_table (set_tty rest (set_aliases (Some (alias_table w)) w)))
      with (alias_table w) in *.
    change (alias_file_writable (set_tty rest (set_aliases (Some (alias_table w)) w)))
      with (alias_file_writable w) in *.
    exists w'. split; [done|]. rewrite Htab. repeat split.
    + apply lookup_delete_eq.
    + intros k Hk. by apply lookup_delete_ne.
    + done.
Qed.

(** *** Dispatch *)

Section Dispatch.
Variable uuid4 : nat -> string.
Variable external_execute : Command -> M World CommandResult.

Lemma prepare_spec w :
  exists w',
    prepare w = (Return tt, w') /\
    commands w' = Some (registry w) /\
    alias_table w' = alias_table w /\
    aliases w' = Some (alias_table w) /\
    alias_file w' = alias_file w /\
    tty w' = tty w /\
    loaded_portfolio_name w' = loaded_portfolio_name w /\
    analysis_runners w' = analysis_runners w /\
    runner_objs w' = runner_objs w.
Proof.
  unfold prepare. run. rewrite load_aliases_spec. cbv beta iota.
  unfold registry. destruct (commands w) as [cmds|] eqn:Hc.
  - assert (Hc' : commands (set_aliases (Some (alias_table w)) w) = Some cmds) by done.
    rewrite Hc'. eexists. split; [done|]. by repeat split.
  - assert (Hc' : commands (set_aliases (Some (alias_table w)) w) = None) by done.
    rewrite Hc'. eexists. split; [done|]. by repeat split.
Qed.

Lemma init_commands_spec w :
  exists w',
    _init_commands w = (Return tt, w') /\
    commands w' = Some command_table /\
    aliases w' = aliases w.
Proof. eexists. split; [reflexivity|]. by split. Qed.

(** [execute_command] is: prepare, resolve the alias, look the handler
    up, run it. *)
Lemma execute_command_spec name w :
  execute_command uuid4 external_execute name w
  = match registry w !! resolve name w with
    | Some handler => execute uuid4 external_execute handler (prepare w).2
    | None => (Return (unknown_command name), (prepare w).2)
    end.
Proof.
  unfold execute_command, prepare, registry, resolve. run.
  rewrite load_aliases_spec. cbv beta iota.
  destruct (commands w) as [cmds|] eqn:Hc.
  - assert (Hc' : commands (set_aliases (Some (alias_table w)) w) = Some cmds) by done.
    rewrite Hc'. cbv beta iota. rewrite Hc'.
    change (default ∅ (Some cmds)) with cmds.
    change (default command_table (Some cmds)) with cmds.
    rewrite alias_table_loaded. by destruct (cmds !! _).
  - assert (Hc' : commands (set_aliases (Some (alias_table w)) w) = None) by done.
    rewrite Hc'. cbv beta iota.
    destruct (init_commands_spec (set_aliases (Some (alias_table w)) w))
      as (w' & -> & Hcmds & Hal).
    cbv beta iota. rewrite Hcmds.
    change (default ∅ (Some command_table)) with command_table.
    change (default command_table None) with command_table.
    assert (Htab : alias_table w' = alias_table w).
    { unfold alias_table at 1. by rewrite Hal. }
    rewrite Htab. by destruct (command_table !! _).
Qed.

Lemma unknown_command_message name :
  success (unknown_command name) = false /\
  exists msg, message (unknown_command name) = Some msg /\
              contains msg "Unknown command".
Proof.
  split; [done|]. eexists. split; [done|].
  exists "", (": " +:+ name +:+
              String (ascii_of_nat 10) "Type 'help' for available commands.").
  done.
Qed.

(** C4. A typed name that is not in the registry, and that is not an
    alias of a name in the registry, is answered by dispatch with the
    result [unknown_command]: it returns (no exception), [success] is
    false and the message contains the words Unknown command. *)
Theorem unknown_command_fails (w : World) (name : string) :
  registry w !! name = None ->
  (forall c, alias_table w !! name = Some c -> registry w !! c = None) ->
  exists w',
    execute_command uuid4 external_execute name w = (Return (unknown_command name), w') /\
    success (unknown_command name) = false /\
    exists msg, message (unknown_command name) = Some msg /\
                contains msg "Unknown command".
Proof.
  intros Hname Halias. rewrite execute_command_spec.
  assert (Hnone : registry w !! resolve name w = None).
  { unfold resolve. destruct (alias_table w !! name) as [c|] eqn:Hc; simpl; auto. }
  rewrite Hnone. eexists. split; [done|]. apply unknown_command_message.
Qed.

(** An alias in the table is dispatched exactly as its target (when
    the target is not itself an alias key): the dispatcher's half of
    the alias round trip. *)
Lemma dispatch_alias_as_target w a c :
  alias_table w !! a = Some c -> alias_table w !! c = None ->
  is_Some (registry w !! c) ->
  execute_command uuid4 external_execute a w
  = execute_command uuid4 external_execute c w.
Proof.
  intros Ha Hc [h Hh]. rewrite !execute_command_spec. unfold resolve.
  rewrite Ha, Hc. simpl. by rewrite Hh.
Qed.

(** C3 (as amended). [execute_command] has no handler of its own: when
    the handler that a typed line resolves to raises [e], dispatch
    raises the same [e] in the same state.  The enclosing iteration of
    the command loop is where it is caught: for an instance of
    [Exception] the loop stops the running analyses and goes on to
    the next iteration; for [KeyboardInterrupt] it stops them and
    leaves the loop. *)
Theorem handler_exception_reaches_loop (w w' : World) (line : string)
    (rest : list tty_event) (handler : Command) (e : exn) :
  tty w = Line line :: rest ->
  registry w !! resolve (lower (strip line)) w = Some handler ->
  execute uuid4 external_execute handler (prepare (set_tty rest w)).2 = (Raise e, w') ->
  execute_command uuid4 external_execute (lower (strip line)) (set_tty rest w)
  = (Raise e, w') /\
  (is_Exception e = true ->
     loop_iteration uuid4 external_execute w
     = (Return NextIteration, (stop_all_analyses w').2)) /\
  (is_KeyboardInterrupt e = true ->
     loop_iteration uuid4 external_execute w
     = (Return LeaveLoop, (stop_all_analyses w').2)).
Proof.
  intros Htty Hreg Hexec.
  assert (Hdisp : execute_command uuid4 external_execute (lower (strip line))
                    (set_tty rest w) = (Raise e, w')).
  { rewrite execute_command_spec.
    change (registry (set_tty rest w)) with (registry w).
    change (resolve (lower (strip line)) (set_tty rest w))
      with (resolve (lower (strip line)) w).
    by rewrite Hreg. }
  split; [done|].
  unfold loop_iteration. run. unfold read_line, input. rewrite Htty.
  cbv beta iota. rewrite Hdisp. cbv beta iota.
  split; intros He.
  - assert (Hk : is_KeyboardInterrupt e = false).
    { unfold is_Exception, is_KeyboardInterrupt in *. by destruct (exn_class e). }
    by rewrite Hk, He.
  - by rewrite He.
Qed.

End Dispatch.

End DispatchTheory.

(* ===================================================================== *)
(** ** Setting an alias, stopping an analysis: what the code does *)
(* ===================================================================== *)

Module SessionTheory.
Import Py CommandsCore InputValidation Commands Scenarios DispatchTheory.

#[local] Arguments alias_table : simpl never.

Lemma read_validated_tty_only vs args w :
  exists o rest, read_validated vs args w = (o, set_tty rest w).
Proof.
  unfold read_validated. destruct (get_validated_input vs args (tty w)) as [o rest].
  by exists o, rest.
Qed.

(** Whatever is typed, [_set_alias] leaves the alias table as it was:
    on every path that reaches [add_alias], the unpacking statement
    either raises or binds a local name, and nothing is inserted. *)
Lemma set_alias_never_changes_table w :
  alias_table (_set_alias w).2 = alias_table w.
Proof.
  unfold _set_alias. run. unfold pretty_print_info_text.
  destruct (commands w) as [cmds|] eqn:Hc; [|done].
  destruct (bool_decide (cmds = ∅)); [done|]. cbv beta iota.
  destruct (read_validated_tty_only [Unary is_non_empty_string] None w)
    as (o1 & rest1 & ->).
  destruct o1 as [cmd_name|e]; [|done]. cbv beta iota.
  destruct (negb (registered cmd_name (set_tty rest1 w))); [done|].
  destruct (read_validated_tty_only [Unary is_non_empty_string] None (set_tty rest1 w))
    as (o2 & rest2 & ->).
  destruct o2 as [alias|e]; [|done]. cbv beta iota.
  destruct (registered alias (set_tty rest1 w)).
  - done.
  - rewrite get_aliases_spec. cbv beta iota.
    destruct (bool_decide (is_Some _)); [done|].
    destruct (add_alias alias cmd_name _) as [o3 w3] eqn:Hadd.
    pose proof (add_alias_table alias cmd_name
                  (set_aliases (Some (alias_table (set_tty rest2 (set_tty rest1 w))))
                     (set_tty rest2 (set_tty rest1 w)))) as Htab.
    rewrite Hadd in Htab. simpl in Htab.
    by destruct o3.
Qed.

(** *** The [stop] branch of the analysis command *)

Lemma get_validated_input_valid vs args tty v rest :
  get_validated_input vs args tty = (Return v, rest) ->
  all_validators vs v args = Return true.
Proof.
  induction tty as [|[line|] tty IH]; simpl; [done| |done].
  destruct (all_validators vs line args) as [[|]|e] eqn:Hall; [|done|done].
  by intros [= <- _].
Qed.

Lemma analysis_choice_valid (w : World) a v rest :
  analyses w = {[ "sample_analysis" := a ]} ->
  get_validated_input [Unary is_non_empty_string; Binary is_valid_analysis_subcommand]
    (Some (valid_analysis_subcommands w)) (tty w) = (Return v, rest) ->
  v = "status" \/ v = "stop" \/ v = "sample_analysis".
Proof.
  intros Ha Hread. apply get_validated_input_valid in Hread. simpl in Hread.
  destruct (is_non_empty_string v); [|done].
  destruct (is_valid_analysis_subcommand v _) eqn:Hv; [|done].
  unfold is_valid_analysis_subcommand, valid_analysis_subcommands in Hv.
  apply bool_decide_eq_true in Hv. rewrite Ha, map_to_list_singleton in Hv.
  simpl in Hv.
  apply elem_of_cons in Hv as [-> | Hv]; [by left|].
  apply elem_of_cons in Hv as [-> | Hv]; [by right; left|].
  apply list_elem_of_singleton in Hv as ->. by right; right.
Qed.

(** With the analyses that [_init_analyses] registers, no input makes
    [AnalysisCommand.execute] set a stop flag: an input of the form
    [stop <id>] does not pass [is_valid_analysis_subcommand], so the
    branch that calls [_stop_analysis] is never taken. *)
Lemma analysis_execute_keeps_flags uuid4 (w : World) a :
  analyses w = {[ "sample_analysis" := a ]} ->
  analysis_objs (AnalysisCommand_execute uuid4 w).2 = analysis_objs w.
Proof.
  intros Ha. unfold AnalysisCommand_execute. run. cbv beta iota.
  destruct (negb (portfolio_loaded w)); [done|].
  unfold read_validated.
  destruct (get_validated_input _ _ (tty w)) as [[v|e] rest] eqn:Hread; [|done].
  destruct (analysis_choice_valid _ _ _ _ Ha Hread) as [-> | [-> | ->]]; [done|..];
    simpl; (destruct (bool_decide _); [|done]); unfold _start_analysis;
    by destruct (analyses _ !! _).
Qed.

(** *** Concrete sessions *)

(** C1. On a new manager the user asks for the alias [h] of the
    registered command [help].  [add_alias] raises at its unpacking
    statement, the alias command reports the failure, no alias is
    stored in memory or on disk, and [h] is afterwards an unknown
    command while [help] runs its handler. *)
Theorem alias_set_does_not_round_trip :
  after_alias_set.1
  = Return (failure "Error managing aliases: too many values to unpack (expected 1)") /\
  alias_table after_alias_set.2 = ∅ /\
  alias_file after_alias_set.2 = NoFile /\
  tty after_alias_set.2 = [] /\
  (dispatch "h" after_alias_set.2).1 = Return (unknown_command "h") /\
  (dispatch "help" after_alias_set.2).1 = Return (CommandResult_ true None).
Proof. vm_compute. repeat split. Qed.

(** C2. A sample analysis is started and runs under the id shown to the
    user.  Typing [stop <id>] at the analysis prompt is rejected as
    invalid input; the next input [stop] is answered with the failure
    [Unknown analysis.]; the stop flag of the analysis is still false.
    Had the input reached the [stop] branch, the id computed from it
    would be the text of a list, which is no key of [running_analyses]. *)
Theorem stop_subcommand_never_signals :
  analysis_started.1
  = Return (CommandResult_ true
              (Some "sample_analysis started with ID 1b4e28ba-2fa1-4d3b-a3f5-9c1d6e7f8a90")) /\
  running_analyses analysis_started.2 !! uuid4 0 = Some 0 /\
  AnalysisCore.is_running <$> runner_objs analysis_started.2 !! 0 = Some true /\
  stop_attempt.1 = Return (failure "Unknown analysis.") /\
  tty stop_attempt.2 = [] /\
  analysis_objs stop_attempt.2 = [mkStoppable false] /\
  (_stop_analysis (str_list (split_space_once ("stop " +:+ uuid4 0))) analysis_started.2).1
  = Return (failure
      "No running analysis with ID '['stop', '1b4e28ba-2fa1-4d3b-a3f5-9c1d6e7f8a90']'.").
Proof. vm_compute. repeat split. Qed.

(** C3 does not hold of dispatch itself: with a portfolio loaded and
    the terminal at end of file, the handler of the registered command
    [analysis] raises [EOFError], and dispatch raises it too instead of
    returning a failure result. *)
Lemma dispatch_raises_handler_exception :
  registry (session_with_portfolio []) !! "analysis" = Some AnalysisCommand /\
  (execute uuid4 MockCommand_execute AnalysisCommand
     (dispatching (session_with_portfolio []))).1
  = Raise (Exn EOFError "EOF when reading a line") /\
  analysis_at_eof.1 = Raise (Exn EOFError "EOF when reading a line") /\
  ~ (exists res w', analysis_at_eof = (Return res, w') /\ success res = false).
Proof.
  split; [by vm_compute|]. split; [by vm_compute|].
  assert (H : analysis_at_eof.1 = Raise (Exn EOFError "EOF when reading a line"))
    by by vm_compute.
  split; [done|]. intros (res & w' & Heq & _). by rewrite Heq in H.
Qed.

Lemma handler_exception_reaches_loop_witness :
  loop_iteration uuid4 MockCommand_execute (session_with_portfolio ["analysis"])
  = (Return NextIteration, (stop_all_analyses analysis_at_eof.2).2).
Proof.
  refine (proj1 (proj2 (handler_exception_reaches_loop uuid4 MockCommand_execute
            (session_with_portfolio ["analysis"]) analysis_at_eof.2 "analysis" []
            AnalysisCommand (Exn EOFError "EOF when reading a line") _ _ _)) _).
  - reflexivity.
  - vm_compute. reflexivity.
  - vm_compute. reflexivity.
  - reflexivity.
Defined.

Lemma unknown_command_fails_witness :
  exists w', dispatch "zzz" (fresh_session []) = (Return (unknown_command "zzz"), w').
Proof.
  destruct (unknown_command_fails uuid4 MockCommand_execute (fresh_session []) "zzz")
    as (w' & H & _).
  - vm_compute. reflexivity.
  - intros c Hc. vm_compute in Hc. discriminate Hc.
  - exists w'. exact H.
Defined.

Lemma set_alias_conflict_witness :
  exists w',
    _set_alias (dispatching (session_with_alias_file {[ "h" := "help" ]} ["help"; "h"]))
    = (Return (failure "Alias 'h' already exists or conflicts with a command name."), w') /\
    alias_table w' = {[ "h" := "help" ]} /\
    alias_file w' = JsonObject {[ "h" := "help" ]}.
Proof.
  destruct (set_alias_conflict
              (dispatching (session_with_alias_file {[ "h" := "help" ]} ["help"; "h"]))
              "help" "h" [Line "h"] [])
    as (w' & H & Htab & Hfile & _).
  - vm_compute. reflexivity.
  - vm_compute. reflexivity.
  - vm_compute. reflexivity.
  - right. vm_compute. eexists. reflexivity.
  - exists w'. split; [exact H|]. split; [rewrite Htab|rewrite Hfile]; vm_compute; reflexivity.
Defined.

Lemma remove_alias_spec_witness :
  exists w',
    _remove_alias (dispatching (session_with_alias_file {[ "h" := "help" ]} ["h"]))
    = (Return (CommandResult_ true (Some "Alias 'h' removed.")), w') /\
    alias_table w' = ∅ /\
    alias_file w' = JsonObject ∅.
Proof.
  destruct (remove_alias_spec
              (dispatching (session_with_alias_file {[ "h" := "help" ]} ["h"]))
              "h" [])
    as [_ Hpresent].
  - vm_compute. reflexivity.
  - destruct Hpresent as (w' & H & Htab & _ & _ & Hfile).
    + vm_compute. eexists. reflexivity.
    + exists w'. split; [exact H|]. split.
      * rewrite Htab. vm_compute. reflexivity.
      * rewrite Hfile; vm_compute; reflexivity.
Defined.

End SessionTheory.

(* ===================================================================== *)
(** ** Reading validated input *)
(* ===================================================================== *)

Module InputValidationTheory.
Import Py InputValidation.





(** X1. When [get_validated_input] returns a value, that value passes
    every validator, it is the first line to do so, and exactly the
    rejected lines before it and the line itself have been consumed. *)
Theorem get_validated_input_returns_first_valid (vs : list validator)
    (args : option (list string)) (tty rest : list tty_event) (v : string) :
  get_validated_input vs args tty = (Return v, rest) ->
  exists skipped,
    tty = ((Line <$> skipped) ++ Line v :: rest)%list /\
    Forall (fun l => all_validators vs l args = Return false) skipped /\
    all_validators vs v args = Return true.
Proof.
  revert v rest. induction tty as [|[line|] tty IH]; intros v rest; simpl; [done| |done].
  destruct (all_validators vs line args) as [[|]|e] eqn:Hall; [| |done].
  - intros [= <- <-]. by exists [].
  - intros (skipped & -> & Hsk & Hv)%IH. exists (line :: skipped).
    split; [done|]. split; [by constructor|done].
Qed.

Lemma get_validated_input_returns_first_valid_witness :
  exists skipped,
    [Line "  "; Line "delete"; Line "list"; Line "x"]
    = ((Line <$> skipped) ++ Line "list" :: [Line "x"])%list /\
    Forall (fun l => all_validators
                       [Unary is_non_empty_string; Binary is_valid_alias_subcommand] l
                       (Some ["set"; "remove"; "list"; "help"]) = Return false) skipped.
Proof.
  destruct (get_validated_input_returns_first_valid
              [Unary is_non_empty_string; Binary is_valid_alias_subcommand]
              (Some ["set"; "remove"; "list"; "help"])
              [Line "  "; Line "delete"; Line "list"; Line "x"] [Line "x"] "list")
    as (skipped & Heq & Hsk & _).
  - vm_compute. reflexivity.
  - exists skipped. split; [exact Heq|exact Hsk].
Defined.

(** X2. If every line that is left is rejected, [get_validated_input]
    consumes all of them and raises the [EOFError] of [input()]: it
    never returns a value that a validator rejected. *)
Theorem get_validated_input_eof (vs : list validator) (args : option (list string))
    (lines : list string) :
  Forall (fun l => all_validators vs l args = Return false) lines ->
  get_validated_input vs args (Line <$> lines)
  = (Raise (Exn EOFError "EOF when reading a line"), []).
Proof.
  induction 1 as [|l lines Hl _ IH]; simpl; [done|]. by rewrite Hl.
Qed.

Lemma get_validated_input_eof_witness :
  get_validated_input [Unary is_non_empty_string] None (Line <$> [""; "   "])
  = (Raise (Exn EOFError "EOF when reading a line"), []).
Proof.
  apply (get_validated_input_eof [Unary is_non_empty_string] None [""; "   "]).
  repeat constructor.
Defined.

End InputValidationTheory.

(* ===================================================================== *)
(** ** The outcome of the sample analysis *)
(* ===================================================================== *)

Module SampleAnalysisOutcome.
Import CommandsCore SampleAnalysis SampleAnalysisTheory.

(** X19. [SampleAnalysis.run] reads the stop flag a hundred times.  It
    returns the early outcome exactly when one of these reads sees the
    flag set, and the completed outcome exactly when none does. *)
Theorem run_outcome (flag_at : nat -> bool) :
  (run flag_at = stopped_early <-> exists k, k < 100 /\ flag_at k = true) /\
  (run flag_at = completed <-> forall k, k < 100 -> flag_at k = false).
Proof.
  split; split.
  - intros Hrun.
    destruct (decide (Exists (fun k => flag_at k = true) (seq 0 100))) as [Hex|Hno].
    + apply Exists_exists in Hex as (k & Hk & Hflag).
      apply elem_of_seq in Hk. exists k. split; [lia|done].
    + exfalso. unfold run in Hrun. rewrite run_from_completes in Hrun; [done|].
      intros k Hk. simpl. destruct (flag_at k) eqn:Hflag; [|done].
      exfalso. apply Hno, Exists_exists. exists k. split; [|done].
      apply elem_of_seq. lia.
  - intros (k & Hk & Hflag). by apply (run_from_stops 100 0 flag_at k).
  - intros Hrun k Hk. destruct (flag_at k) eqn:Hflag; [|done].
    unfold run in Hrun. by rewrite (run_from_stops 100 0 flag_at k) in Hrun.
  - intros Hnone. by apply run_from_completes.
Qed.

End SampleAnalysisOutcome.

(* ===================================================================== *)
(** ** The runner: what stays once it has happened *)
(* ===================================================================== *)

Module RunnerInvariants.
Import Py CommandsCore AnalysisCore RunnerTheory.

Lemma step_analysis s ev s' : step s ev s' -> analysis s'.1 = analysis s.1.
Proof.
  destruct 1 as [r objs| | | |r objs o Halive]; simpl; try done.
  - unfold start. by destruct (thread r).
  - unfold worker_finish, _run. destruct o as [v|e]; [done|]. by destruct (is_Exception e).
Qed.

Lemma steps_analysis s evs s' : steps s evs s' -> analysis s'.1 = analysis s.1.
Proof.
  induction 1 as [|s ev s1 evs s2 Hstep _ IH]; [done|].
  rewrite IH. by eapply step_analysis.
Qed.

Lemma stop_keeps_set_flags r objs a obj :
  objs !! a = Some obj -> should_stop obj = true ->
  exists obj', (stop r objs).2 !! a = Some obj' /\ should_stop obj' = true.
Proof.
  intros Hobj Hflag. simpl. destruct (decide (analysis r = a)) as [->|Hne].
  - rewrite list_lookup_alter_eq, Hobj. by eexists.
  - rewrite list_lookup_alter_ne by done. by eexists.
Qed.

Lemma step_keeps_set_flags s ev s' a obj :
  step s ev s' -> s.2 !! a = Some obj -> should_stop obj = true ->
  exists obj', s'.2 !! a = Some obj' /\ should_stop obj' = true.
Proof.
  destruct 1 as [r objs|r objs| | |r objs o Halive]; simpl; eauto.
  apply stop_keeps_set_flags.
Qed.

(** X4. Once the thread of a runner has finished, nothing that happens
    afterwards changes the runner: every later [get_result] gives the
    same outcome, [is_running] stays false, and the body does not end a
    second time. *)
Theorem finished_is_terminal (r r' : AsyncAnalysisRunner)
    (objs objs' : list StoppableAnalysis) (evs : list event) :
  thread r = Finished ->
  steps (r, objs) evs (r', objs') ->
  r' = r /\
  get_result r' = get_result r /\
  is_running r' = false /\
  forall o, BodyEnds o ∉ evs.
Proof.
  intros Hfin Hsteps.
  pose proof (steps_finished _ _ _ Hsteps Hfin) as Heq. simpl in Heq. subst r'.
  split; [done|]. split; [done|]. split.
  - unfold is_running. by rewrite Hfin.
  - intros o Hin. by eapply steps_no_second_body_end.
Qed.

Lemma finished_is_terminal_witness :
  get_result (mkRunner 0 Finished None (Some (Exn ValueError "bad data")) "r1")
  = Raise (Exn ValueError "bad data") /\
  forall o, BodyEnds o ∉ [CallStart; CallStop; CallGetResult].
Proof.
  assert (H : steps (mkRunner 0 Finished None (Some (Exn ValueError "bad data")) "r1",
                     [StoppableAnalysis_init])
                [CallStart; CallStop; CallGetResult]
                (mkRunner 0 Finished None (Some (Exn ValueError "bad data")) "r1",
                 [mkStoppable true])).
  { eapply steps_cons; [apply step_start|].
    eapply steps_cons; [apply step_stop|].
    eapply steps_cons; [apply step_get_result|].
    apply steps_nil. }
  destruct (finished_is_terminal
              (mkRunner 0 Finished None (Some (Exn ValueError "bad data")) "r1")
              _ _ _ _ eq_refl H) as (_ & _ & _ & Hno).
  split; [reflexivity|exact Hno].
Defined.

(** X5. A stop request is never taken back.  Along any steps of a
    runner, an analysis object whose flag is set keeps it set; and if
    [stop] is among the calls made (the wrapped analysis being an
    object of the store), [should_stop] of the wrapped analysis is true
    at the end. *)
Theorem stop_request_persists (r r' : AsyncAnalysisRunner)
    (objs objs' : list StoppableAnalysis) (evs : list event) :
  steps (r, objs) evs (r', objs') ->
  (forall a obj, objs !! a = Some obj -> should_stop obj = true ->
     exists obj', objs' !! a = Some obj' /\ should_stop obj' = true) /\
  (CallStop ∈ evs -> is_Some (objs !! analysis r) ->
     should_stop <$> objs' !! analysis r' = Some true).
Proof.
  intros Hsteps.
  assert (Hkeep : forall s evs s', steps s evs s' ->
            forall a obj, s.2 !! a = Some obj -> should_stop obj = true ->
            exists obj', s'.2 !! a = Some obj' /\ should_stop obj' = true).
  { clear. induction 1 as [|s ev s1 evs s2 Hstep _ IH]; [by eauto|].
    intros a obj Hobj Hflag.
    destruct (step_keeps_set_flags _ _ _ _ _ Hstep Hobj Hflag) as (obj1 & H1 & Hf1).
    by apply (IH a obj1). }
  split; [apply (Hkeep _ _ _ Hsteps)|].
  remember (r, objs) as s eqn:Hs. remember (r', objs') as s' eqn:Hs'.
  assert (Hgoal : CallStop ∈ evs -> is_Some (s.2 !! analysis s.1) ->
            should_stop <$> s'.2 !! analysis s'.1 = Some true); [|by subst].
  clear Hs Hs' r r' objs objs'.
  induction Hsteps as [|s ev s1 evs s2 Hstep Hsteps IH]; [by intros ?%elem_of_nil|].
  intros Hin [obj Hobj].
  assert (Han : analysis s1.1 = analysis s.1) by by eapply step_analysis.
  apply elem_of_cons in Hin as [<-|Hin].
  - inversion Hstep as [|r objs Hr Hev Hs1| | |]; subst. simpl in *.
    assert (Hset : (stop r objs).2 !! analysis r = Some (mkStoppable true)).
    { simpl in *. rewrite list_lookup_alter_eq. unfold addr in *. by rewrite Hobj. }
    destruct (Hkeep _ _ _ Hsteps (analysis r) _ Hset eq_refl) as (obj' & Hobj' & Hflag).
    assert (Han2 : analysis s2.1 = analysis r).
    { by apply steps_analysis in Hsteps. }
    rewrite Han2. unfold addr in *. rewrite Hobj'. simpl. by rewrite Hflag.
  - apply IH; [done|]. rewrite Han.
    destruct Hstep as [r objs|r objs|r objs|r objs|r objs o Halive]; simpl in *; eauto.
    rewrite list_lookup_alter_eq. unfold addr in *. rewrite Hobj. by eexists.
Qed.

Lemma stop_request_persists_witness :
  should_stop <$> [mkStoppable true] !! 0 = Some true.
Proof.
  assert (H : steps (init 0 "r1", [StoppableAnalysis_init])
                [CallStart; CallStop; BodyEnds (Returned SampleAnalysis.stopped_early)]
                (mkRunner 0 Finished (Some SampleAnalysis.stopped_early) None "r1",
                 [mkStoppable true])).
  { eapply steps_cons; [apply step_start|].
    eapply steps_cons; [apply step_stop|].
    eapply steps_cons; [by apply step_body_ends|].
    apply steps_nil. }
  apply (proj2 (stop_request_persists _ _ _ _ _ H)).
  - apply list_elem_of_further, list_elem_of_here.
  - eexists. reflexivity.
Defined.

End RunnerInvariants.

(* ===================================================================== *)
(** ** The alias table and its file *)
(* ===================================================================== *)

Module AliasTheory.
Import Py CommandsCore InputValidation Commands Scenarios AliasSessions DispatchTheory.

#[local] Arguments alias_table : simpl never.

Lemma add_alias_in_step alias command w :
  file_in_step w -> file_in_step (add_alias alias command w).2.
Proof.
  intros [Hw Hf]. unfold add_alias. run. rewrite load_aliases_spec.
  destruct command as [|c [|c' rest]]; simpl; try by split.
  unfold _save_aliases. simpl. rewrite Hw. by split.
Qed.

Lemma remove_alias_in_step alias w :
  file_in_step w -> file_in_step (remove_alias alias w).2.
Proof.
  intros [Hw Hf]. destruct (alias_table w !! alias) as [c|] eqn:Hc.
  - destruct (remove_alias_present alias w) as (w' & Heq & Htab & Hfile); [by eexists|].
    rewrite Heq. simpl. split.
    + revert Heq. unfold remove_alias. run. rewrite load_aliases_spec. simpl.
      rewrite alias_table_loaded, bool_decide_true by by eexists.
      unfold _save_aliases. simpl. rewrite Hw. by intros [= <-].
    + by rewrite Hfile, Htab.
  - rewrite remove_alias_absent by done. by split.
Qed.

Lemma get_aliases_in_step w : file_in_step w -> file_in_step (get_aliases w).2.
Proof. intros [Hw Hf]. rewrite get_aliases_spec. by split. Qed.

(** X6. In a manager that has not loaded its aliases yet and whose
    alias file can be written, after any sequence of [add_alias],
    [remove_alias] and [get_aliases] calls the file holds the table the
    manager ends with: a new manager started on that file reports the
    same aliases. *)
Theorem alias_file_follows_table (w : World) (calls : list alias_call) :
  aliases w = None ->
  alias_file_writable w = true ->
  alias_table (restart (run_alias_calls calls w)) = alias_table (run_alias_calls calls w).
Proof.
  intros Hnone Hw.
  assert (Hstart : file_in_step w).
  { split; [done|]. unfold alias_table. by rewrite Hnone. }
  assert (Hend : file_in_step (run_alias_calls calls w)).
  { unfold run_alias_calls. clear Hnone Hw. revert w Hstart.
    induction calls as [|c calls IH]; intros w Hstart; [done|].
    simpl. apply IH. destruct c as [a c|a|]; simpl.
    - by apply add_alias_in_step.
    - by apply remove_alias_in_step.
    - by apply get_aliases_in_step. }
  destruct Hend as [_ Hf]. by rewrite <- Hf.
Qed.

Lemma alias_file_follows_table_witness :
  alias_table (restart (run_alias_calls [CallGetAliases; CallRemoveAlias "h"]
                          (session_with_alias_file {[ "h" := "help"; "q" := "exit" ]} [])))
  = {[ "q" := "exit" ]}.
Proof.
  rewrite (alias_file_follows_table
             (session_with_alias_file {[ "h" := "help"; "q" := "exit" ]} [])
             [CallGetAliases; CallRemoveAlias "h"]).
  - vm_compute. reflexivity.
  - reflexivity.
  - reflexivity.
Defined.

(** X7. [remove_alias] is idempotent: a second removal of the same alias
    returns normally and changes nothing, neither the table nor the
    file. *)
Theorem remove_alias_twice (w : World) (alias : string) :
  remove_alias alias (remove_alias alias w).2 = (Return tt, (remove_alias alias w).2).
Proof.
  assert (Hgone : forall w1, aliases w1 = Some (alias_table w1) ->
            alias_table w1 !! alias = None -> remove_alias alias w1 = (Return tt, w1)).
  { intros w1 Hal Hout. rewrite remove_alias_absent by done.
    by rewrite set_aliases_loaded_id. }
  destruct (alias_table w !! alias) as [c|] eqn:Hc.
  - unfold remove_alias at 2 3. run. rewrite load_aliases_spec. simpl.
    rewrite alias_table_loaded, bool_decide_true by by eexists.
    unfold _save_aliases. simpl.
    destruct (alias_file_writable w); simpl; apply Hgone; try reflexivity;
      unfold alias_table at 1; simpl; apply lookup_delete_eq.
  - rewrite (remove_alias_absent alias w) by done. simpl. apply Hgone; [reflexivity|].
    by rewrite alias_table_loaded.
Qed.

End AliasTheory.

(* ===================================================================== *)
(** ** Starting and stopping analyses *)
(* ===================================================================== *)

Module AnalysisTheory.
Import Py CommandsCore InputValidation Commands Scenarios.
Import AnalysisCore (AsyncAnalysisRunner, is_running, analysis).

(** One round of the loop in [stop_all_analyses]. *)
Lemma stop_all_fold_keeps (runners : list AsyncAnalysisRunner) (l : list raddr)
    (objs : list StoppableAnalysis) a obj :
  objs !! a = Some obj -> should_stop obj = true ->
  exists obj',
    foldl (fun objs ra =>
             match runners !! ra with
             | Some runner => if is_running runner
                              then (AnalysisCore.stop runner objs).2 else objs
             | None => objs
             end) objs l !! a = Some obj' /\ should_stop obj' = true.
Proof.
  revert objs obj. induction l as [|ra l IH]; intros objs obj Hobj Hflag; [by eauto|].
  simpl. destruct (runners !! ra) as [runner|]; [|by eapply IH].
  destruct (is_running runner); [|by eapply IH].
  destruct (decide (analysis runner = a)) as [<-|Hne].
  - eapply (IH _ (mkStoppable true)); [|done]. simpl.
    rewrite list_lookup_alter_eq. unfold AnalysisCore.addr in *. by rewrite Hobj.
  - eapply (IH _ obj); [|done]. simpl. by rewrite list_lookup_alter_ne.
Qed.

Lemma stop_all_fold_frame (runners : list AsyncAnalysisRunner) (l : list raddr)
    (objs : list StoppableAnalysis) a :
  (forall ra runner, ra ∈ l -> runners !! ra = Some runner ->
     is_running runner = true -> analysis runner <> a) ->
  foldl (fun objs ra =>
           match runners !! ra with
           | Some runner => if is_running runner
                            then (AnalysisCore.stop runner objs).2 else objs
           | None => objs
           end) objs l !! a = objs !! a.
Proof.
  revert objs. induction l as [|ra l IH]; intros objs Hother; [done|].
  simpl. rewrite IH.
  - destruct (runners !! ra) as [runner|] eqn:Hr; [|done].
    destruct (is_running runner) eqn:Hrun; [|done].
    simpl. apply list_lookup_alter_ne. eapply Hother; [|done..]. by left.
  - intros ra' runner Hin. apply Hother. by right.
Qed.

(** X8. [stop_all_analyses] returns normally and changes nothing but
    stop flags.  Afterwards [should_stop] is true for the analysis of
    every runner of the manager's list that is running; a flag that was
    set stays set; and an analysis that no running runner of the list
    wraps is left as it was. *)
Theorem stop_all_analyses_spec (w : World) :
  (stop_all_analyses w).1 = Return tt /\
  (stop_all_analyses w).2 = set_analysis_objs (analysis_objs (stop_all_analyses w).2) w /\
  (forall ra runner,
     ra ∈ analysis_runners w -> runner_objs w !! ra = Some runner ->
     is_running runner = true -> is_Some (analysis_objs w !! analysis runner) ->
     should_stop <$> analysis_objs (stop_all_analyses w).2 !! analysis runner = Some true) /\
  (forall a obj,
     analysis_objs w !! a = Some obj -> should_stop obj = true ->
     should_stop <$> analysis_objs (stop_all_analyses w).2 !! a = Some true) /\
  (forall a,
     (forall ra runner, ra ∈ analysis_runners w -> runner_objs w !! ra = Some runner ->
        is_running runner = true -> analysis runner <> a) ->
     analysis_objs (stop_all_analyses w).2 !! a = analysis_objs w !! a).
Proof.
  split; [done|]. split; [done|]. unfold stop_all_analyses. simpl.
  generalize (runner_objs w) as runners, (analysis_runners w) as l,
    (analysis_objs w) as objs.
  intros runners l objs. split; [|split].
  - revert objs. induction l as [|ra0 l IH]; intros objs ra runner Hin Hr Hrun [obj Hobj];
      [by apply elem_of_nil in Hin|].
    simpl. apply elem_of_cons in Hin as [<-|Hin].
    + rewrite Hr, Hrun.
      destruct (stop_all_fold_keeps runners l (AnalysisCore.stop runner objs).2
                  (analysis runner) (mkStoppable true)) as (obj' & Hobj' & Hflag); [|done|].
      * simpl. rewrite list_lookup_alter_eq. unfold AnalysisCore.addr in *.
        by rewrite Hobj.
      * simpl in Hobj' |- *. unfold AnalysisCore.addr in *. rewrite Hobj'.
        simpl. by rewrite Hflag.
    + apply (IH _ ra runner); [done..|].
      destruct (runners !! ra0) as [r0|]; [|by eexists].
      destruct (is_running r0); [|by eexists].
      simpl. destruct (decide (analysis r0 = analysis runner)) as [Heq|Hne].
      * rewrite Heq, list_lookup_alter_eq. unfold AnalysisCore.addr in *.
        rewrite Hobj. by eexists.
      * rewrite list_lookup_alter_ne by done. by eexists.
  - intros a obj Hobj Hflag.
    destruct (stop_all_fold_keeps runners l objs a obj Hobj Hflag) as (obj' & Hobj' & Hf).
    simpl in Hobj' |- *. rewrite Hobj'. simpl. by rewrite Hf.
  - intros a Hother. by apply stop_all_fold_frame.
Qed.

Section Analysis.
Variable uuid4 : nat -> string.

Lemma start_analysis_effect name a w :
  analyses w !! name = Some a ->
  exists w',
    _start_analysis uuid4 name w
    = (Return (CommandResult_ true
                 (Some (name +:+ " started with ID " +:+ uuid4 (uuids_drawn w)))), w') /\
    runner_objs w'
    = (runner_objs w ++ [AnalysisCore.mkRunner a AnalysisCore.Alive None None
                           (uuid4 (uuids_drawn w))])%list /\
    running_analyses w'
    = <[uuid4 (uuids_drawn w) := List.length (runner_objs w)]> (running_analyses w) /\
    analysis_runners w' = (analysis_runners w ++ [List.length (runner_objs w)])%list /\
    analysis_objs w' = analysis_objs w.
Proof.
  intros Ha. unfold _start_analysis. rewrite Ha. simpl. eexists. by repeat split.
Qed.

Lemma stop_analysis_effect i ra runner w :
  running_analyses w !! i = Some ra -> runner_objs w !! ra = Some runner ->
  is_running runner = true ->
  _stop_analysis i w
  = (Return (CommandResult_ true
               (Some ("Stop signal sent to analysis with ID '" +:+ i +:+ "'."))),
     set_analysis_objs (AnalysisCore.stop runner (analysis_objs w)).2 w).
Proof.
  intros Hi Hr Hrun. unfold _stop_analysis, raddr in *. rewrite Hi. simpl.
  by rewrite Hr, Hrun.
Qed.

(** X9. The analysis object is shared and its flag is never reset.
    After [_stop_analysis] has signalled a running runner, a runner
    that [_start_analysis] creates for the same analysis is running
    and finds [should_stop] already true. *)
Theorem stop_request_outlives_runner (w : World) (i name : string) (ra : raddr)
    (runner : AsyncAnalysisRunner) :
  running_analyses w !! i = Some ra ->
  runner_objs w !! ra = Some runner ->
  is_running runner = true ->
  analyses w !! name = Some (analysis runner) ->
  is_Some (analysis_objs w !! analysis runner) ->
  exists w1 w2 runner2,
    _stop_analysis i w
    = (Return (CommandResult_ true
                 (Some ("Stop signal sent to analysis with ID '" +:+ i +:+ "'."))), w1) /\
    (_start_analysis uuid4 name w1).2 = w2 /\
    runner_objs w2 !! List.length (runner_objs w) = Some runner2 /\
    is_running runner2 = true /\
    should_stop <$> analysis_objs w2 !! analysis runner2 = Some true.
Proof.
  intros Hi Hr Hrun Hname [obj Hobj].
  rewrite (stop_analysis_effect _ _ _ _ Hi Hr Hrun).
  set (w1 := set_analysis_objs _ w).
  destruct (start_analysis_effect name (analysis runner) w1 Hname)
    as (w2 & Hstart & Hrunners & _ & _ & Hobjs).
  exists w1, w2. eexists. split; [done|]. split; [by rewrite Hstart|].
  rewrite Hrunners, Hobjs. split; [|split].
  - change (runner_objs w1) with (runner_objs w).
    by rewrite lookup_app_r, Nat.sub_diag.
  - done.
  - simpl. rewrite list_lookup_alter_eq. unfold AnalysisCore.addr in *.
    by rewrite Hobj.
Qed.

(** X10. The analysis command never forgets a runner.  Whatever is
    typed, the runner objects that existed are still there, unchanged
    and at their addresses, every id that was registered is still
    registered, and the manager's list has only grown. *)
Theorem analysis_execute_keeps_runners (w : World) :
  runner_objs w `prefix_of` runner_objs (AnalysisCommand_execute uuid4 w).2 /\
  dom (running_analyses w) ⊆ dom (running_analyses (AnalysisCommand_execute uuid4 w).2) /\
  analysis_runners w `prefix_of` analysis_runners (AnalysisCommand_execute uuid4 w).2.
Proof.
  unfold AnalysisCommand_execute. DispatchTheory.run. cbv beta iota.
  destruct (negb (portfolio_loaded w)); [done|].
  unfold read_validated.
  destruct (get_validated_input _ _ (tty w)) as [[v|e] rest]; [|done].
  destruct (String.eqb v "status"); [done|].
  destruct (startswith v "stop ").
  - unfold _stop_analysis.
    destruct (running_analyses _ !! _ ≫= _) as [runner|]; [|done].
    by destruct (is_running runner).
  - destruct (bool_decide _); [|done]. unfold _start_analysis.
    destruct (analyses _ !! v) as [a|]; [|done]. simpl.
    split; [by apply prefix_app_r|]. split; [|by apply prefix_app_r].
    apply dom_insert_subseteq.
Qed.

End Analysis.

Lemma stop_request_outlives_runner_witness :
  exists w1 w2 runner2,
    _stop_analysis (Scenarios.uuid4 0) analysis_started.2
    = (Return (CommandResult_ true
                 (Some ("Stop signal sent to analysis with ID '" +:+
                        Scenarios.uuid4 0 +:+ "'."))), w1) /\
    (_start_analysis Scenarios.uuid4 "sample_analysis" w1).2 = w2 /\
    runner_objs w2 !! List.length (runner_objs analysis_started.2) = Some runner2 /\
    is_running runner2 = true /\
    should_stop <$> analysis_objs w2 !! analysis runner2 = Some true.
Proof.
  apply (stop_request_outlives_runner Scenarios.uuid4 analysis_started.2
           (Scenarios.uuid4 0) "sample_analysis" 0
           (AnalysisCore.mkRunner 0 AnalysisCore.Alive None None (Scenarios.uuid4 0))).
  - vm_compute. reflexivity.
  - vm_compute. reflexivity.
  - reflexivity.
  - vm_compute. reflexivity.
  - vm_compute. eexists. reflexivity.
Defined.

End AnalysisTheory.

(* ===================================================================== *)
(** ** Dispatch and the command loop *)
(* ===================================================================== *)

Module LoopTheory.
Import Py CommandsCore InputValidation Commands Scenarios AliasSessions DispatchTheory.

#[local] Arguments alias_table : simpl never.

(** *** What can be raised *)

Lemma handled_ret {A : Type} (a : A) : raises_only_handled (ret a).
Proof. by intros w e w'. Qed.

Lemma handled_bind {A B : Type} (m : M World A) (k : A -> M World B) :
  raises_only_handled m -> (forall a, raises_only_handled (k a)) ->
  raises_only_handled (bind m k).
Proof.
  intros Hm Hk w e w'. unfold bind. destruct (m w) as [[a|e1] w1] eqn:Hmw.
  - apply Hk.
  - intros [= <- <-]. by eapply Hm.
Qed.

Lemma handled_if {A : Type} (b : bool) (m1 m2 : M World A) :
  raises_only_handled m1 -> raises_only_handled m2 ->
  raises_only_handled (if b then m1 else m2).
Proof. by destruct b. Qed.

Lemma handled_try {A : Type} (m : M World A) (h : exn -> M World A) :
  raises_only_handled m -> (forall e, raises_only_handled (h e)) ->
  raises_only_handled (try_except_Exception m h).
Proof.
  intros Hm Hh w e w'. unfold try_except_Exception.
  destruct (m w) as [[a|e1] w1] eqn:Hmw; [done|].
  destruct (is_Exception e1) eqn:He1; [apply Hh|].
  intros [= <- <-]. by eapply Hm.
Qed.

Lemma all_validators_handled vs value args e :
  all_validators vs value args = Raise e -> is_Exception e = true.
Proof.
  induction vs as [|v vs IH]; simpl; [done|].
  destruct (apply_validator v value args) as [[|]|e1] eqn:Hv; [done|done|].
  intros [= <-]. destruct v as [f|f], args as [a|]; simpl in Hv; try done.
  by injection Hv as <-.
Qed.

Lemma handled_read_validated vs args : raises_only_handled (read_validated vs args).
Proof.
  intros w e w'. unfold read_validated.
  destruct (get_validated_input vs args (tty w)) as [o rest] eqn:Hread.
  intros [= -> _]. revert rest Hread. generalize (tty w) as t. clear.
  induction t as [|[line|] t IH]; intros rest; simpl.
  - intros [= <- _]. by left.
  - destruct (all_validators vs line args) as [[|]|e1] eqn:Hall; [done|apply IH|].
    intros [= <- _]. left. by eapply all_validators_handled.
  - intros [= <- _]. by right.
Qed.

Lemma handled_read_line : raises_only_handled read_line.
Proof.
  intros w e w'. unfold read_line, input.
  destruct (tty w) as [|[line|] t]; intros [= <- _]; [by left|by right].
Qed.

Lemma handled_total {A : Type} (m : M World A) :
  (forall w, exists a w', m w = (Return a, w')) -> raises_only_handled m.
Proof. intros Hm w e w' Heq. destruct (Hm w) as (a & w1 & Hr). congruence. Qed.

Lemma handled_pretty_print_info_text : raises_only_handled pretty_print_info_text.
Proof.
  intros w e w'. unfold pretty_print_info_text.
  destruct (commands w) as [cmds|]; [|by intros [= <- _]; left].
  destruct (bool_decide _); [by intros [= <- _]; left|done].
Qed.

Lemma handled_add_alias alias command : raises_only_handled (add_alias alias command).
Proof.
  intros w e w'. unfold add_alias. run. rewrite load_aliases_spec.
  destruct command as [|c [|c' rest]]; simpl.
  - intros [= <- _]. by left.
  - unfold _save_aliases. simpl. by destruct (alias_file_writable w).
  - intros [= <- _]. by left.
Qed.

Lemma handled_get_aliases : raises_only_handled get_aliases.
Proof. apply handled_total. intros w. rewrite get_aliases_spec. by eauto. Qed.

Lemma handled_remove_alias alias : raises_only_handled (remove_alias alias).
Proof.
  apply handled_total. intros w. destruct (alias_table w !! alias) as [c|] eqn:Hc.
  - destruct (remove_alias_present alias w) as (w' & -> & _); [by eexists|by eauto].
  - rewrite remove_alias_absent by done. by eauto.
Qed.

Lemma handled_get : raises_only_handled (@get World).
Proof. by intros w e w'. Qed.

Lemma handled_set_alias : raises_only_handled _set_alias.
Proof.
  unfold _set_alias.
  repeat first
    [ apply handled_ret
    | apply handled_get
    | apply handled_get_aliases
    | apply handled_pretty_print_info_text
    | apply handled_read_validated
    | apply handled_add_alias
    | apply handled_if
    | apply handled_bind; [|intros ?] ].
Qed.

Lemma handled_remove_alias_command : raises_only_handled _remove_alias.
Proof.
  unfold _remove_alias.
  repeat first
    [ apply handled_ret
    | apply handled_get_aliases
    | apply handled_read_validated
    | apply handled_remove_alias
    | apply handled_if
    | apply handled_bind; [|intros ?] ].
Qed.

Lemma handled_list_aliases : raises_only_handled _list_aliases.
Proof.
  unfold _list_aliases.
  repeat first
    [ apply handled_ret | apply handled_get_aliases | apply handled_if
    | apply handled_bind; [|intros ?] ].
Qed.

(** What [AliasCommand.execute] runs inside its [try]. *)
Lemma handled_alias_body :
  raises_only_handled
    (subcommand ← read_validated
                    [Unary is_non_empty_string; Binary is_valid_alias_subcommand]
                    (Some valid_alias_subcommands);
     if String.eqb subcommand "help" then _show_help
     else if String.eqb subcommand "list" then _list_aliases
     else if String.eqb subcommand "set" then _set_alias
     else if String.eqb subcommand "remove" then _remove_alias
     else ret (failure "Invalid subcommand. Use 'alias help' for usage information.")).
Proof.
  apply handled_bind; [apply handled_read_validated|]. intros sub.
  repeat apply handled_if;
    first [ apply handled_ret | apply handled_list_aliases | apply handled_set_alias
          | apply handled_remove_alias_command ].
Qed.

(** X11. [AliasCommand.execute] lets no [Exception] out: whatever is
    typed and whatever the alias file holds, it returns a result, or it
    raises the [KeyboardInterrupt] of an interrupted prompt. *)
Theorem alias_command_raises_only_interrupt (w w' : World) (e : exn) :
  AliasCommand_execute w = (Raise e, w') -> exn_class e = KeyboardInterrupt.
Proof.
  intros Hraise.
  unfold AliasCommand_execute, try_except_Exception in Hraise.
  match type of Hraise with
  | context [match ?m w with _ => _ end] => destruct (m w) as [[a|e1] w1] eqn:Hm
  end; [done|].
  destruct (is_Exception e1) eqn:He1; [done|].
  injection Hraise as <- <-.
  destruct (handled_alias_body _ _ _ Hm) as [He|He]; [congruence|].
  unfold is_KeyboardInterrupt in He. by destruct (exn_class e1).
Qed.

Lemma alias_command_raises_only_interrupt_witness :
  exn_class (Exn KeyboardInterrupt "") = KeyboardInterrupt.
Proof.
  apply (alias_command_raises_only_interrupt
           (set_tty [Line "set"; CtrlC] (dispatching (fresh_session [])))
           (AliasCommand_execute
              (set_tty [Line "set"; CtrlC] (dispatching (fresh_session [])))).2
           (Exn KeyboardInterrupt "")).
  vm_compute. reflexivity.
Defined.

Section Loop.
Variable uuid4 : nat -> string.
Variable external_execute : Command -> M World CommandResult.

Lemma handled_alias_command : raises_only_handled AliasCommand_execute.
Proof.
  unfold AliasCommand_execute.
  apply handled_try; [apply handled_alias_body|]. intros e. apply handled_ret.
Qed.

Lemma handled_start_analysis name : raises_only_handled (_start_analysis uuid4 name).
Proof.
  intros w e w'. unfold _start_analysis.
  destruct (analyses w !! name) as [a|]; [done|]. intros [= <- _]. by left.
Qed.

Lemma handled_stop_analysis i : raises_only_handled (_stop_analysis i).
Proof.
  intros w e w'. unfold _stop_analysis.
  destruct (running_analyses w !! i ≫= _) as [runner|]; [|done].
  by destruct (AnalysisCore.is_running runner).
Qed.

Lemma handled_analysis_command : raises_only_handled (AnalysisCommand_execute uuid4).
Proof.
  unfold AnalysisCommand_execute.
  apply handled_bind; [apply handled_get|]. intros w0.
  apply handled_if; [apply handled_ret|].
  apply handled_bind; [apply handled_read_validated|]. intros choice.
  repeat apply handled_if;
    first [ apply handled_ret | apply handled_stop_analysis
          | apply handled_start_analysis ].
Qed.

Lemma handled_execute handler :
  (forall c, raises_only_handled (external_execute c)) ->
  raises_only_handled (execute uuid4 external_execute handler).
Proof.
  intros Hext. destruct handler; simpl; try apply Hext; try apply handled_ret;
    first [ apply handled_alias_command | apply handled_analysis_command | idtac ].
  apply handled_bind; [apply handled_pretty_print_info_text|]. intros _.
  apply handled_ret.
Qed.

Lemma handled_execute_command name :
  (forall c, raises_only_handled (external_execute c)) ->
  raises_only_handled (execute_command uuid4 external_execute name).
Proof.
  intros Hext w e w'. rewrite execute_command_spec.
  destruct (registry w !! resolve name w) as [handler|]; [|done].
  by apply handled_execute.
Qed.

(** X12. If the handlers of the broker commands raise nothing but
    instances of [Exception] and [KeyboardInterrupt], no iteration of
    the command loop raises: whatever is typed, whatever state the
    manager is in, the iteration ends with the decision to go on or
    to leave the loop. *)
Theorem loop_iteration_never_raises (w : World) :
  (forall c, raises_only_handled (external_execute c)) ->
  exists control w', loop_iteration uuid4 external_execute w = (Return control, w').
Proof.
  intros Hext. unfold loop_iteration.
  match goal with
  | |- context [match ?m w with _ => _ end] =>
      assert (Hbody : raises_only_handled m); [|destruct (m w) as [[c|e] w1] eqn:Hm]
  end.
  - apply handled_bind; [apply handled_read_line|]. intros command.
    apply handled_bind; [by apply handled_execute_command|]. intros result.
    apply handled_if; [|apply handled_ret].
    apply handled_total. intros w0. by eauto.
  - by eauto.
  - destruct (Hbody _ _ _ Hm) as [He|He].
    + assert (Hk : is_KeyboardInterrupt e = false).
      { unfold is_Exception, is_KeyboardInterrupt in *. by destruct (exn_class e). }
      rewrite Hk, He. by eauto.
    + rewrite He. by eauto.
Qed.

(** X13. Typing [exit], in any letter case and with any surrounding
    blanks, ends the loop in that iteration, after the running
    analyses have been signalled; the lines typed after it are not
    read. *)
Theorem exit_ends_loop (w : World) (line : string) (rest : list tty_event) (fuel : nat) :
  tty w = Line line :: rest ->
  lower (strip line) = "exit" ->
  alias_table w !! "exit" = None ->
  registry w !! "exit" = Some ExitCommand ->
  run_command_loop uuid4 external_execute (S fuel) w
  = Some (Return tt, (stop_all_analyses (prepare (set_tty rest w)).2).2).
Proof.
  intros Htty Hline Halias Hreg. simpl. unfold loop_iteration. run.
  unfold read_line, input. rewrite Htty. cbv beta iota. rewrite Hline.
  rewrite execute_command_spec.
  change (registry (set_tty rest w)) with (registry w).
  change (resolve "exit" (set_tty rest w)) with (resolve "exit" w).
  unfold resolve. rewrite Halias. simpl default. by rewrite Hreg.
Qed.

(** X14. At end of input the loop does not end: [input()] raises
    [EOFError], the loop's handler for [Exception] takes it and the
    next iteration does the same, however many iterations are run. *)
Theorem loop_spins_at_end_of_input (w : World) (fuel : nat) :
  tty w = [] ->
  run_command_loop uuid4 external_execute fuel w = None.
Proof.
  revert w. induction fuel as [|fuel IH]; intros w Htty; [done|].
  simpl. unfold loop_iteration. run. unfold read_line, input. rewrite Htty.
  cbv beta iota. simpl. by apply IH.
Qed.

(** X15. The interrupt key at the loop's prompt ends the loop normally
    (the method returns, it does not raise), after the running
    analyses have been signalled. *)
Theorem interrupt_ends_loop (w : World) (rest : list tty_event) (fuel : nat) :
  tty w = CtrlC :: rest ->
  run_command_loop uuid4 external_execute (S fuel) w
  = Some (Return tt, (stop_all_analyses (set_tty rest w)).2).
Proof.
  intros Htty. simpl. unfold loop_iteration. run. unfold read_line, input.
  by rewrite Htty.
Qed.

(** X16. [prepare], the first lines of [execute_command], does its
    work once: on a manager that has dispatched before it changes
    nothing, so the registry, the analysis command and its runners
    are the same objects from one dispatch to the next. *)
Theorem prepare_once (w : World) :
  prepare (prepare w).2 = (Return tt, (prepare w).2).
Proof.
  destruct (prepare_spec w) as (w' & Hp & Hcmds & Htab & Hal & _).
  rewrite Hp. simpl. unfold prepare. run. rewrite load_aliases_spec.
  rewrite Htab, (set_aliases_loaded_id w' (alias_table w)) by done.
  cbv beta iota. by rewrite Hcmds.
Qed.

(** X17. An alias key wins over a command of the same name: when the
    typed name is a key of the alias table and its target is not a
    registered command, dispatch answers with the unknown-command
    failure for the typed name, whether or not a command is
    registered under that name. *)
Theorem alias_hides_command (w : World) (name target : string) :
  alias_table w !! name = Some target ->
  registry w !! target = None ->
  execute_command uuid4 external_execute name w
  = (Return (unknown_command name), (prepare w).2).
Proof.
  intros Halias Htarget. rewrite execute_command_spec. unfold resolve.
  rewrite Halias. simpl. by rewrite Htarget.
Qed.

(** X18. An alias in the table whose target is a registered command
    (and not itself an alias key) dispatches exactly as its target:
    the same result and the same state. *)
Theorem alias_dispatches_as_target (w : World) (alias target : string) :
  alias_table w !! alias = Some target ->
  alias_table w !! target = None ->
  is_Some (registry w !! target) ->
  execute_command uuid4 external_execute alias w
  = execute_command uuid4 external_execute target w.
Proof.
  intros Ha Ht [handler Hh]. rewrite !execute_command_spec. unfold resolve.
  rewrite Ha, Ht. simpl. by rewrite Hh.
Qed.

End Loop.

Lemma loop_iteration_never_raises_witness :
  exists control w',
    loop_iteration uuid4 MockCommand_execute (fresh_session [" Help "])
    = (Return control, w').
Proof.
  apply (loop_iteration_never_raises uuid4 MockCommand_execute (fresh_session [" Help "])).
  intros c. apply handled_ret.
Defined.

Lemma exit_ends_loop_witness :
  run_command_loop uuid4 MockCommand_execute 1 (fresh_session ["  EXIT "; "help"])
  = Some (Return tt,
          (stop_all_analyses
             (prepare (set_tty [Line "help"] (fresh_session ["  EXIT "; "help"]))).2).2).
Proof.
  apply (exit_ends_loop uuid4 MockCommand_execute
           (fresh_session ["  EXIT "; "help"]) "  EXIT " [Line "help"] 0).
  - reflexivity.
  - vm_compute. reflexivity.
  - vm_compute. reflexivity.
  - vm_compute. reflexivity.
Defined.

Lemma loop_spins_at_end_of_input_witness :
  run_command_loop uuid4 MockCommand_execute 25 (fresh_session []) = None.
Proof.
  apply (loop_spins_at_end_of_input uuid4 MockCommand_execute (fresh_session []) 25).
  reflexivity.
Defined.

Lemma interrupt_ends_loop_witness :
  run_command_loop uuid4 MockCommand_execute 1 (CommandManager_init [CtrlC] NoFile true)
  = Some (Return tt,
          (stop_all_analyses (set_tty [] (CommandManager_init [CtrlC] NoFile true))).2).
Proof.
  apply (interrupt_ends_loop uuid4 MockCommand_execute
           (CommandManager_init [CtrlC] NoFile true) [] 0).
  reflexivity.
Defined.

Lemma alias_hides_command_witness :
  dispatch "help" (session_with_alias_file {[ "help" := "hilfe" ]} [])
  = (Return (unknown_command "help"),
     (prepare (session_with_alias_file {[ "help" := "hilfe" ]} [])).2).
Proof.
  apply (alias_hides_command uuid4 MockCommand_execute
           (session_with_alias_file {[ "help" := "hilfe" ]} []) "help" "hilfe").
  - vm_compute. reflexivity.
  - vm_compute. reflexivity.
Defined.

Lemma alias_dispatches_as_target_witness :
  dispatch "h" (session_with_alias_file {[ "h" := "help" ]} [])
  = dispatch "help" (session_with_alias_file {[ "h" := "help" ]} []).
Proof.
  apply (alias_dispatches_as_target uuid4 MockCommand_execute
           (session_with_alias_file {[ "h" := "help" ]} []) "h" "help").
  - vm_compute. reflexivity.
  - vm_compute. reflexivity.
  - vm_compute. eexists. reflexivity.
Defined.

End LoopTheory.
